(** * Mongobject: a facade over a MongoDB client

    A shallow embedding of [mongobject.py].  The class keeps a client
    handle and two names (database, collection) as attributes of [self],
    and forwards every data operation to the driver after testing that
    both names resolve.

    What Python does implicitly is written out here:
    - an attribute of [self] that was never assigned is [None] in the
      record [object]; reading it raises [AttributeError];
    - an attribute of the class [Mongobject] is looked up in the class
      body's namespace [Mongobject_dict];
    - truth values of arguments ([if database:], [data and ...]);
    - the two names [res] and [dic] of the result loop of [find] denote
      one object in a store.

    The driver (pymongo) is not part of the repository: it is the class
    [pymongo.Driver], every request answers (transport failures are
    outside the model), and every request made is recorded in a log.
    The handle is used the way the class uses it, as a dictionary of
    databases ([keys], [in], item assignment).

    Every method of the class is modelled.  The informative ones
    ([_server_info], [get_info], the two [get_available_...] listings)
    need three more calls of the driver, the class [pymongo.Listing]. *)

From Stdlib Require Import ZArith Lia.
From stdpp Require Import base tactics option list strings.

Local Open Scope string_scope.
Local Open Scope list_scope.
Local Open Scope Z_scope.

(** ** Python values *)

Inductive scalar :=
| SNone
| SBool (b : bool)
| SInt (z : Z)
| SStr (s : string)
| SObjectId (n : N).

#[warnings="-register-all"]
Inductive value :=
| VAtom (a : scalar)
| VList (l : list value)
| VDict (d : list (string * value)).

Definition None_ : value := VAtom SNone.

Definition str_bool (s : string) : bool :=
  match s with EmptyString => false | String _ _ => true end.

Definition scalar_bool (a : scalar) : bool :=
  match a with
  | SNone => false
  | SBool b => b
  | SInt z => negb (z =? 0)
  | SStr s => str_bool s
  | SObjectId _ => true
  end.

(** [bool(v)]: what [if v:] tests. *)
Definition truthy (v : value) : bool :=
  match v with
  | VAtom a => scalar_bool a
  | VList l => match l with [] => false | _ :: _ => true end
  | VDict d => match d with [] => false | _ :: _ => true end
  end.

(** Arguments documented as [string] or [int], with default [None]. *)
Definition opt_str_bool (o : option string) : bool :=
  match o with None => false | Some s => str_bool s end.

Definition opt_int_bool (o : option Z) : bool :=
  match o with None => false | Some z => negb (z =? 0) end.

Definition is_None (v : value) : bool :=
  match v with VAtom SNone => true | _ => false end.

Definition bool_Z (b : bool) : Z := if b then 1 else 0.

(** [a == b] on scalars ([True == 1] holds in Python). *)
Definition scalar_eqb (a b : scalar) : bool :=
  match a, b with
  | SNone, SNone => true
  | SBool x, SBool y => Bool.eqb x y
  | SInt x, SInt y => x =? y
  | SBool x, SInt y => bool_Z x =? y
  | SInt x, SBool y => x =? bool_Z y
  | SStr x, SStr y => String.eqb x y
  | SObjectId x, SObjectId y => (x =? y)%N
  | _, _ => false
  end.

(** ** Outcomes of a call *)

Inductive exn := AttributeError | TypeError | KeyError | IndexError.

Inductive outcome (A : Type) :=
| Ret (a : A)
| Raise (e : exn)
| Running.   (* the loop bound of the model was reached *)
Arguments Ret {A} a.
Arguments Raise {A} e.
Arguments Running {A}.

Definition is_Raise {A} (o : outcome A) : bool :=
  match o with Raise _ => true | _ => false end.

(** ** The driver *)

Module pymongo.

(** Arguments of [MongoClient(host=None, port=None, **kwargs)]. *)
Record client_args := {
  ca_host : option string;
  ca_port : option Z;
  ca_ssl : option bool
}.

Record InsertOneResult := { inserted_id : value }.
Record InsertManyResult := { inserted_ids : list value }.
Record UpdateResult := { matched_count : nat; modified_count : nat }.
Record DeleteResult := { deleted_count : nat }.

Inductive ReturnDocument := BEFORE | AFTER.

(** The calls the facade makes, as the facade writes them:
    [self.instance.keys()], [self.instance[db].keys()],
    [self.instance[db][c].insert_one(doc)], ...  A [server] is what the
    deployment holds; a request returns its answer and the new
    deployment. *)
Class Driver := {
  client : Type;
  server : Type;
  MongoClient : client_args -> client;
  client_bool : client -> bool;
  close : client -> server -> server;
  keys : client -> server -> list string;
  contains : client -> string -> server -> bool;
  setitem : client -> string -> server -> server;
  database_keys : client -> string -> server -> list string;
  drop_database : client -> string -> server -> server;
  create_collection : client -> string -> option string -> server -> server;
  drop_collection : client -> string -> string -> server -> server;
  insert_one : client -> string -> string -> value -> server ->
               InsertOneResult * server;
  insert_many : client -> string -> string -> list value -> server ->
                InsertManyResult * server;
  replace_one : client -> string -> string -> value -> value -> bool ->
                server -> UpdateResult * server;
  update_one : client -> string -> string -> value -> value -> bool ->
               server -> UpdateResult * server;
  update_many : client -> string -> string -> value -> value -> bool ->
                server -> UpdateResult * server;
  delete_one : client -> string -> string -> value -> server ->
               DeleteResult * server;
  delete_many : client -> string -> string -> value -> server ->
                DeleteResult * server;
  (* filter, projection, skip, limit, sort *)
  find : client -> string -> string ->
         value -> value -> Z -> Z -> value -> server -> value * server;
  (* filter, projection, skip, sort *)
  find_one : client -> string -> string ->
             value -> value -> Z -> value -> server -> value * server;
  find_one_and_delete : client -> string -> string ->
             value -> value -> Z -> value -> server -> value * server;
  (* filter, document, upsert, projection, skip, sort, return_document *)
  find_one_and_replace : client -> string -> string ->
             value -> value -> bool -> value -> Z -> value ->
             ReturnDocument -> server -> value * server;
  find_one_and_update : client -> string -> string ->
             value -> value -> bool -> value -> Z -> value ->
             ReturnDocument -> server -> value * server;
  count_documents : client -> string -> string -> value -> Z -> Z ->
                    server -> Z * server;
  distinct : client -> string -> string -> string -> value -> server ->
             list value * server
}.

(** A request to a collection together with its answer. *)
Inductive request :=
| InsertOne (doc : value) (r : InsertOneResult)
| InsertMany (docs : list value) (r : InsertManyResult)
| ReplaceOne (filter replacement : value) (upsert : bool) (r : UpdateResult)
| UpdateOne (filter update : value) (upsert : bool) (r : UpdateResult)
| UpdateMany (filter update : value) (upsert : bool) (r : UpdateResult)
| DeleteOne (filter : value) (r : DeleteResult)
| DeleteMany (filter : value) (r : DeleteResult)
| Find (filter : value) (r : value)
| FindOne (filter : value) (r : value)
| FindOneAndDelete (filter : value) (r : value)
| FindOneAndReplace (filter document : value) (r : value)
| FindOneAndUpdate (filter document : value) (r : value)
| CountDocuments (filter : value) (r : Z)
| Distinct (key : string) (filter : value) (r : list value).

Inductive event :=
| Connect (a : client_args)
| Close
| SetItem (db : string)
| DropDatabase (db : string)
| CreateCollection (db : string) (name : option string)
| DropCollection (db c : string)
| OnCollection (db c : string) (q : request).

(** The calls of the informative methods: [self.instance.server_info()],
    [self.instance.list_database_names()] and
    [self.instance[db].list_collection_names(filter=f)].  They read the
    deployment, like [keys]. *)
Class Listing `{Driver} := {
  server_info : client -> server -> value;
  list_database_names : client -> server -> list string;
  list_collection_names : client -> string -> value -> server -> list string
}.

End pymongo.

Import pymongo.

(** ** Documents and the result dictionary of [find] *)

Fixpoint lookup_key (k : string) (d : list (string * value)) : option value :=
  match d with
  | [] => None
  | (k', v) :: d' => if String.eqb k k' then Some v else lookup_key k d'
  end.

Definition remove_key (k : string) (d : list (string * value))
  : list (string * value) :=
  filter (fun kv => String.eqb k kv.1 = false) d.

Definition has_key (k : string) (d : list (string * value)) : bool :=
  match lookup_key k d with Some _ => true | None => false end.

(** Objects yielded by a cursor live in a store; a name holds a
    reference.  [dic = res] copies the reference, not the object. *)
Definition ref := nat.
Definition store := list value.

(** [fr[k] = r] on a dictionary with scalar keys: an equal key keeps its
    place and gets the new value, a new key goes last. *)
Fixpoint dict_set (k : scalar) (r : ref) (fr : list (scalar * ref))
  : list (scalar * ref) :=
  match fr with
  | [] => [(k, r)]
  | (k', r') :: fr' =>
      if scalar_eqb k' k then (k', r) :: fr' else (k', r') :: dict_set k r fr'
  end.

#[global] Instance outcome_ret : MRet outcome := fun _ a => Ret a.
#[global] Instance outcome_bind : MBind outcome := fun _ _ f o =>
  match o with
  | Ret a => f a
  | Raise e => Raise e
  | Running => Running
  end.

(** [for x in v]: the items a value yields. *)
Definition py_iter (v : value) : outcome (list value) :=
  match v with
  | VList l => Ret l
  | VDict d => Ret (map (fun kv => VAtom (SStr kv.1)) d)
  | VAtom (SStr s) =>
      Ret (map (fun a => VAtom (SStr (String a EmptyString)))
               (String.list_ascii_of_string s))
  | VAtom _ => Raise TypeError
  end.

(** [del h[r][k]] *)
Definition delitem (h : store) (r : ref) (k : string) : outcome store :=
  match h !! r with
  | Some (VDict d) =>
      if has_key k d then Ret (<[r := VDict (remove_key k d)]> h)
      else Raise KeyError
  | _ => Raise TypeError
  end.

(** [h[r].get(k)] *)
Definition get_method (h : store) (r : ref) (k : string) : outcome value :=
  match h !! r with
  | Some (VDict d) => Ret (default None_ (lookup_key k d))
  | _ => Raise AttributeError
  end.

(** [fr[k] = r]; lists and dictionaries are not hashable. *)
Definition setitem_result (fr : list (scalar * ref)) (k : value) (r : ref)
  : outcome (list (scalar * ref)) :=
  match k with
  | VAtom a => Ret (dict_set a r fr)
  | _ => Raise TypeError
  end.

(** The loop "Process result" of [find] (lines 345-348):
<<
    for res in result:
        dic = res
        del dic['_id']
        find_result[res.get('_id')] = dic
>> *)
Fixpoint process_result (result : list value) (h : store)
    (find_result : list (scalar * ref))
  : outcome (store * list (scalar * ref)) :=
  match result with
  | [] => Ret (h, find_result)
  | x :: result' =>
      let res : ref := length h in
      let h0 := h ++ [x] in
      let dic : ref := res in
      h1 ← delitem h0 dic "_id";
      k ← get_method h1 res "_id";
      find_result' ← setitem_result find_result k dic;
      process_result result' h1 find_result'
  end.

(** The dictionary the caller receives: every reference read in the
    final store. *)
Definition snapshot (h : store) (fr : list (scalar * ref))
  : list (scalar * value) :=
  map (fun kr => (kr.1, default None_ (h !! kr.2))) fr.

Definition find_result_of (result : value) : outcome (list (scalar * value)) :=
  items ← py_iter result;
  hf ← process_result items [] [];
  Ret (snapshot hf.1 hf.2).

(** ** The class [Mongobject] *)

(** What a name of the class body is bound to. *)
Inductive member := Method | Data (c : scalar).

(** The names bound by the body of [class Mongobject] (lines 10-379).
    [FIND], [FIND_ONE], ... are assigned inside [__init__] (lines 32-36):
    they are local variables of that call and not names of the class. *)
Definition Mongobject_dict : list (string * member) :=
  [ ("__init__", Method); ("__del__", Method); ("_server_info", Method);
    ("get_info", Method); ("_connect_database", Method);
    ("_check_database", Method); ("_check_collection", Method);
    ("set_instance", Method); ("get_instance", Method);
    ("set_database", Method); ("get_database", Method);
    ("set_collection", Method); ("get_collection", Method);
    ("get_available_databases", Method);
    ("get_available_collections", Method);
    ("create_database", Method); ("drop_database", Method);
    ("create_collection", Method); ("drop_collection", Method);
    ("insert", Method); ("replace", Method); ("update", Method);
    ("delete", Method); ("find", Method); ("count", Method);
    ("distinct", Method) ].

(** The class body as it would read with the five constants bound at
    class level; used only to examine the code behind the lookup. *)
Definition Mongobject_dict_with_constants : list (string * member) :=
  [ ("FIND", Data (SInt 1)); ("FIND_ONE", Data (SInt 2));
    ("FIND_ONE_AND_DELETE", Data (SInt 3));
    ("FIND_ONE_AND_REPLACE", Data (SInt 4));
    ("FIND_ONE_AND_UPDATE", Data (SInt 5)) ] ++ Mongobject_dict.

Fixpoint lookup_member (name : string) (ns : list (string * member))
  : option member :=
  match ns with
  | [] => None
  | (n, m) :: ns' => if String.eqb name n then Some m else lookup_member name ns'
  end.

(** [Mongobject.name] *)
Definition class_getattr (ns : list (string * member)) (name : string)
  : outcome member :=
  match lookup_member name ns with
  | Some m => Ret m
  | None => Raise AttributeError
  end.

(** [v == m] for a value and a class member. *)
Definition eq_member (v : value) (m : member) : bool :=
  match m, v with
  | Data c, VAtom a => scalar_eqb a c
  | _, _ => false
  end.

(** [data[0]] *)
Definition getitem0 (data : value) : outcome value :=
  match data with
  | VList (x :: _) => Ret x
  | VList [] => Raise IndexError
  | VDict _ => Raise KeyError
  | VAtom (SStr (String a _)) => Ret (VAtom (SStr (String a EmptyString)))
  | VAtom (SStr EmptyString) => Raise IndexError
  | VAtom _ => Raise TypeError
  end.

Module Mongobject.
Section WithDriver.
Context `{drv : Driver}.

(** The attributes of [self]; [None] is an attribute never assigned. *)
Record object := {
  instance : option client;
  database : option string;
  collection : option string
}.

Record world := {
  self : object;
  srv : server;
  log : list event
}.

Definition M (A : Type) : Type := world -> outcome A * world.

Definition ret {A} (a : A) : M A := fun w => (Ret a, w).

(** Sequencing: an exception ends the call and leaves the world as it
    was when raised. *)
Definition bind {A B} (m : M A) (f : A -> M B) : M B := fun w =>
  match m w with
  | (Ret a, w') => f a w'
  | (Raise e, w') => (Raise e, w')
  | (Running, w') => (Running, w')
  end.

Notation "'let*' x ':=' c 'in' k" := (bind c (fun x => k))
  (at level 10, x name, c at level 100, k at level 200).
Notation "c '>>' k" := (bind c (fun _ => k))
  (at level 90, right associativity).

Definition lift {A} (o : outcome A) : M A := fun w => (o, w).

Definition raise {A} (e : exn) : M A := lift (Raise e).

(** Reading [self.x] *)
Definition getattr {A} (field : object -> option A) : M A := fun w =>
  match field (self w) with
  | Some a => (Ret a, w)
  | None => (Raise AttributeError, w)
  end.

Definition set_self (o : object) : M unit := fun w =>
  (Ret tt, {| self := o; srv := srv w; log := log w |}).

Definition get_self : M object := fun w => (Ret (self w), w).

(** A call that reads the deployment. *)
Definition observe {A} (f : server -> A) : M A := fun w =>
  (Ret (f (srv w)), w).

(** The world once the driver has taken a call: the new deployment,
    and the call at the end of the log. *)
Definition answered (w : world) (s : server) (ev : event) : world :=
  {| self := self w; srv := s; log := log w ++ [ev] |}.

(** A call that returns nothing. *)
Definition command (f : server -> server) (ev : event) : M unit := fun w =>
  (Ret tt, answered w (f (srv w)) ev).

(** A call that returns an answer. *)
Definition call {A} (f : server -> A * server) (ev : A -> event) : M A :=
  fun w => let (a, s) := f (srv w) in (Ret a, answered w s (ev a)).

(** A call on [self.instance[self.database][self.collection]]. *)
Definition request {A}
    (f : client -> string -> string -> server -> A * server)
    (q : A -> pymongo.request) : M A :=
  let* cl := getattr instance in
  let* db := getattr database in
  let* c := getattr collection in
  call (f cl db c) (fun a => OnCollection db c (q a)).

(** [self.instance = MongoClient(...)] *)
Definition connect (a : client_args) : M unit := fun w =>
  (Ret tt,
   {| self := {| instance := Some (MongoClient a);
                 database := database (self w);
                 collection := collection (self w) |};
      srv := srv w;
      log := log w ++ [Connect a] |}).

(** [self] holds all three attributes. *)
Definition selected (w : world) (cl : client) (db c : string) : Prop :=
  self w = {| instance := Some cl; database := Some db;
              collection := Some c |}.

(** Lines 67-84. *)
Definition _connect_database (uri host : option string) (port : option Z)
  : M unit :=
  if match uri with Some u => String.prefix "mongodb://" u | None => false end
  then connect {| ca_host := uri; ca_port := None; ca_ssl := Some true |}
  else if opt_str_bool host && opt_int_bool port
  then connect {| ca_host := host; ca_port := port; ca_ssl := Some true |}
  else if opt_str_bool host || opt_str_bool uri
  then match host with
       | Some h =>
           connect {| ca_host := Some ("mongodb://" +:+ h +:+ "/?ssl=true");
                      ca_port := None; ca_ssl := None |}
       | None => raise TypeError   (* 'mongodb://' + None *)
       end
  else connect {| ca_host := None; ca_port := None; ca_ssl := Some true |}.

(** Lines 126-133 and 143-150: a false argument leaves the attribute. *)
Definition set_database (name : option string) : M unit :=
  if opt_str_bool name
  then let* o := get_self in
       set_self {| instance := instance o; database := name;
                   collection := collection o |}
  else ret tt.

Definition set_collection (name : option string) : M unit :=
  if opt_str_bool name
  then let* o := get_self in
       set_self {| instance := instance o; database := database o;
                   collection := name |}
  else ret tt.

Definition get_instance : M client := getattr instance.
Definition get_database : M string := getattr database.
Definition get_collection : M string := getattr collection.

(** Lines 10-36.  The two conditional assignments (lines 24-29) are
    the bodies of the setters.  The five assignments [FIND = 1] ... bind
    local names of the call and have no effect once it returns. *)
Definition __init__ (uri host : option string) (port : option Z)
    (database_name collection_name : option string) : M unit :=
  _connect_database uri host port >>
  set_database database_name >>
  set_collection collection_name.

(** The object [__init__] receives. *)
Definition blank : object :=
  {| instance := None; database := None; collection := None |}.

Definition fresh (s : server) : world :=
  {| self := blank; srv := s; log := [] |}.

(** Lines 103-116. *)
Definition set_instance (uri host : option string) (port : option Z)
  : M unit :=
  let* cl := getattr instance in
  (if client_bool cl
   then let* cl' := getattr instance in command (close cl') Close
   else ret tt) >>
  _connect_database uri host port.

(** Line 92: [self.database in self.instance.keys()] *)
Definition _check_database : M bool :=
  let* db := getattr database in
  let* cl := getattr instance in
  let* ks := observe (keys cl) in
  ret (bool_decide (db ∈ ks)).

(** Line 101. *)
Definition _check_collection : M bool :=
  let* ok := _check_database in
  if ok
  then let* c := getattr collection in
       let* cl := getattr instance in
       let* db := getattr database in
       let* ks := observe (database_keys cl db) in
       ret (bool_decide (c ∈ ks))
  else ret false.

(** Lines 178-186. *)
Definition create_database (db_name : option string) : M unit :=
  let* cl := getattr instance in
  if client_bool cl && opt_str_bool db_name
  then match db_name with
       | Some n =>
           let* cl' := getattr instance in
           let* present := observe (contains cl' n) in
           if negb present
           then let* cl'' := getattr instance in
                command (setitem cl'' n) (SetItem n) >>
                set_database db_name
           else ret tt
       | None => ret tt
       end
  else ret tt.

(** Lines 188-198. *)
Definition drop_database : M unit :=
  let* ok := _check_database in
  if ok
  then let* cl := getattr instance in
       let* db := getattr database in
       command (pymongo.drop_database cl db) (DropDatabase db) >>
       (* Reset database and collection name *)
       set_database None >>
       set_collection None
  else ret tt.

(** Lines 200-211. *)
Definition create_collection (collection_name : option string) : M unit :=
  let* ok := _check_database in
  if ok
  then let* cl := getattr instance in
       let* db := getattr database in
       command (pymongo.create_collection cl db collection_name)
               (CreateCollection db collection_name) >>
       set_collection collection_name
  else ret tt.

(** Lines 213-222. *)
Definition drop_collection : M unit :=
  let* ok := _check_collection in
  if ok
  then let* cl := getattr instance in
       let* db := getattr database in
       let* c := getattr collection in
       command (pymongo.drop_collection cl db c) (DropCollection db c) >>
       (* Reset collection name *)
       set_collection None
  else ret tt.

(** Lines 224-246. *)
Definition insert (data : value) : M bool :=
  let* ok := (if truthy data then _check_collection else ret false) in
  if ok
  then match data with
       | VList ((_ :: _ :: _) as l) =>
           let* result := request (fun cl db c => insert_many cl db c l)
                            (InsertMany l) in
           ret (length (inserted_ids result) =? length l)%nat
       | VDict _ =>
           let* result := request (fun cl db c => insert_one cl db c data)
                            (InsertOne data) in
           ret (negb (is_None (inserted_id result)))
       | _ =>
           let* item := lift (getitem0 data) in
           let* result := request (fun cl db c => insert_one cl db c item)
                            (InsertOne item) in
           ret (negb (is_None (inserted_id result)))
       end
  else ret false.

(** The loop of lines 264-270; [fuel] bounds the number of rounds. *)
Fixpoint replace_loop (fuel : nat) (filter replacement : value)
    (upsert : bool) : M bool :=
  match fuel with
  | O => lift Running
  | S fuel' =>
      let* result := request
        (fun cl db c => replace_one cl db c filter replacement upsert)
        (ReplaceOne filter replacement upsert) in
      if (matched_count result =? modified_count result)%nat
      then ret true
      else if (modified_count result =? 0)%nat
      then ret false
      else replace_loop fuel' filter replacement upsert
  end.

(** Lines 248-272. *)
Definition replace (fuel : nat) (filter replacement : value)
    (upsert only_one : bool) : M bool :=
  let* ok := _check_collection in
  if ok
  then if only_one
       then let* result := request
              (fun cl db c => replace_one cl db c filter replacement upsert)
              (ReplaceOne filter replacement upsert) in
            ret (modified_count result =? 1)%nat
       else replace_loop fuel filter replacement upsert
  else ret false.

(** Lines 274-292. *)
Definition update (filter update_ : value) (upsert only_one : bool)
  : M bool :=
  let* ok := _check_collection in
  if ok
  then if only_one
       then let* result := request
              (fun cl db c => update_one cl db c filter update_ upsert)
              (UpdateOne filter update_ upsert) in
            ret (modified_count result =? 1)%nat
       else let* result := request
              (fun cl db c => update_many cl db c filter update_ upsert)
              (UpdateMany filter update_ upsert) in
            ret (modified_count result =? matched_count result)%nat
  else ret false.

(** Lines 294-310. *)
Definition delete (filter : value) (only_one : bool) : M bool :=
  let* ok := _check_collection in
  if ok
  then let* result := (if only_one
                 then request (fun cl db c => delete_one cl db c filter)
                              (DeleteOne filter)
                 else request (fun cl db c => delete_many cl db c filter)
                              (DeleteMany filter)) in
       ret (0 <? deleted_count result)%nat
  else ret false.

Definition return_document (before : bool) : ReturnDocument :=
  if before then BEFORE else AFTER.

(** Lines 329-340: the chain of comparisons with the attributes of the
    class; [None] is the final [else]. *)
Definition select_result (ns : list (string * member))
    (filter projection : value) (skip limit : Z)
    (sort find_option document : value)
    (upsert return_document_before : bool) : M (option value) :=
  let* m1 := lift (class_getattr ns "FIND") in
  if eq_member find_option m1
  then let* r := request
         (fun cl db c => pymongo.find cl db c filter projection skip limit sort)
         (Find filter) in ret (Some r)
  else
  let* m2 := lift (class_getattr ns "FIND_ONE") in
  if eq_member find_option m2
  then let* r := request
         (fun cl db c => find_one cl db c filter projection skip sort)
         (FindOne filter) in ret (Some r)
  else
  let* m3 := lift (class_getattr ns "FIND_ONE_AND_DELETE") in
  if eq_member find_option m3
  then let* r := request
         (fun cl db c => find_one_and_delete cl db c filter projection skip sort)
         (FindOneAndDelete filter) in ret (Some r)
  else
  let* m4 := lift (class_getattr ns "FIND_ONE_AND_REPLACE") in
  if eq_member find_option m4
  then let* r := request
         (fun cl db c => find_one_and_replace cl db c filter document upsert
                           projection skip sort
                           (return_document return_document_before))
         (FindOneAndReplace filter document) in ret (Some r)
  else
  let* m5 := lift (class_getattr ns "FIND_ONE_AND_UPDATE") in
  if eq_member find_option m5
  then let* r := request
         (fun cl db c => find_one_and_update cl db c filter document upsert
                           projection skip sort
                           (return_document return_document_before))
         (FindOneAndUpdate filter document) in ret (Some r)
  else ret None.

(** Lines 312-352, for a class whose namespace is [ns]. *)
Definition find_in (ns : list (string * member))
    (filter projection : value) (skip limit : Z)
    (sort find_option document : value)
    (upsert return_document_before : bool) : M (list (scalar * value)) :=
  let* ok := _check_collection in
  if ok
  then let* selected := select_result ns filter projection skip limit sort
                    find_option document upsert return_document_before in
       match selected with
       | Some result => lift (find_result_of result)
       | None => ret []
       end
  else ret [].

(** [find] of the class as it is written. *)
Definition find := find_in Mongobject_dict.

(** Lines 354-366. *)
Definition count (filter : value) (skip limit : Z) : M Z :=
  let* ok := _check_collection in
  if ok
  then request (fun cl db c => count_documents cl db c filter skip limit)
               (CountDocuments filter)
  else ret (-1).

(** Lines 368-379. *)
Definition distinct (key : string) (filter : value) : M (list value) :=
  let* ok := _check_collection in
  if ok
  then request (fun cl db c => pymongo.distinct cl db c key filter)
               (Distinct key filter)
  else ret [].

(** The answers of [n] successive [replace_one] requests, and the
    deployment they leave. *)
Fixpoint replace_one_answers (n : nat) (cl : client) (db c : string)
    (filter replacement : value) (upsert : bool) (s : server)
  : list UpdateResult * server :=
  match n with
  | O => ([], s)
  | S n' =>
      let (a, s1) := replace_one cl db c filter replacement upsert s in
      let (l, s2) :=
        replace_one_answers n' cl db c filter replacement upsert s1 in
      (a :: l, s2)
  end.

(** A call ends normally, holding a client made with the arguments
    [a] by the last call to the driver. *)
Definition connects_with (m : M unit) (w : world) (a : client_args) : Prop :=
  (m w).1 = Ret tt /\
  instance (self (m w).2) = Some (MongoClient a) /\
  last (log (m w).2) = Some (Connect a).

(** Construction, and reconfiguration of a constructed object, connect
    with the arguments [a]. *)
Definition resolves_to (uri host : option string) (port : option Z)
    (a : client_args) : Prop :=
  (forall w database_name collection_name,
     connects_with (__init__ uri host port database_name collection_name)
                   w a) /\
  (forall w, is_Some (instance (self w)) ->
     connects_with (set_instance uri host port) w a).

(** The database and the collection are selected and both resolve. *)
Definition active (w : world) : Prop := (_check_collection w).1 = Ret true.

(** *** The remaining methods *)

(** Lines 38-45. *)
Definition __del__ : M unit :=
  let* cl := getattr instance in
  if client_bool cl
  then let* cl' := getattr instance in command (close cl') Close
  else ret tt.

Context `{lst : !Listing}.

(** Lines 47-53. *)
Definition _server_info : M value :=
  let* cl := getattr instance in
  observe (server_info cl).

(** Lines 55-65: the three values of the dictionary, in the order they
    are written. *)
Definition get_info : M value :=
  let* host := _server_info in
  let* db := getattr database in
  let* c := getattr collection in
  ret (VDict [("host", host); ("database", VAtom (SStr db));
              ("collection", VAtom (SStr c))]).

(** Lines 160-167: [filter] is not used. *)
Definition get_available_databases (filter : value) : M (list string) :=
  let* cl := getattr instance in
  if client_bool cl
  then let* cl' := getattr instance in observe (list_database_names cl')
  else ret [].

(** Lines 169-176. *)
Definition get_available_collections (filter : value) : M (list string) :=
  let* ok := _check_database in
  if ok
  then let* cl := getattr instance in
       let* db := getattr database in
       observe (list_collection_names cl db filter)
  else ret [].

(** *** Sessions

    A call of one method of the class after construction, with its
    arguments; [invoke] keeps the world the call leaves (also when it
    raises) and drops what it returns. *)
Inductive method :=
| Call_del
| Call_get_info
| Call_set_instance (uri host : option string) (port : option Z)
| Call_get_instance
| Call_set_database (name : option string)
| Call_get_database
| Call_set_collection (name : option string)
| Call_get_collection
| Call_get_available_databases (filter : value)
| Call_get_available_collections (filter : value)
| Call_create_database (db_name : option string)
| Call_drop_database
| Call_create_collection (collection_name : option string)
| Call_drop_collection
| Call_insert (data : value)
| Call_replace (fuel : nat) (filter replacement : value) (upsert only_one : bool)
| Call_update (filter update_ : value) (upsert only_one : bool)
| Call_delete (filter : value) (only_one : bool)
| Call_find (filter projection : value) (skip limit : Z)
       (sort find_option document : value) (upsert before : bool)
| Call_count (filter : value) (skip limit : Z)
| Call_distinct (key : string) (filter : value).

Definition invoke (m : method) (w : world) : world :=
  match m with
  | Call_del => (__del__ w).2
  | Call_get_info => (get_info w).2
  | Call_set_instance uri host port => (set_instance uri host port w).2
  | Call_get_instance => (get_instance w).2
  | Call_set_database name => (set_database name w).2
  | Call_get_database => (get_database w).2
  | Call_set_collection name => (set_collection name w).2
  | Call_get_collection => (get_collection w).2
  | Call_get_available_databases f => (get_available_databases f w).2
  | Call_get_available_collections f => (get_available_collections f w).2
  | Call_create_database n => (create_database n w).2
  | Call_drop_database => (drop_database w).2
  | Call_create_collection n => (create_collection n w).2
  | Call_drop_collection => (drop_collection w).2
  | Call_insert data => (insert data w).2
  | Call_replace fuel f r u o => (replace fuel f r u o w).2
  | Call_update f u up o => (update f u up o w).2
  | Call_delete f o => (delete f o w).2
  | Call_find f p sk l so fo d u b => (find f p sk l so fo d u b w).2
  | Call_count f sk l => (count f sk l w).2
  | Call_distinct k f => (distinct k f w).2
  end.

(** The calls of [ms], one after the other. *)
Definition session (ms : list method) (w : world) : world :=
  fold_left (fun w m => invoke m w) ms w.

(** The names an object may hold: none, or a non-empty string. *)
Definition names_ok (o : object) : Prop :=
  database o <> Some "" /\ collection o <> Some "".

End WithDriver.

Notation "'let*' x ':=' c 'in' k" := (bind c (fun x => k))
(at level 10, x name, c at level 100, k at level 200).
Notation "c '>>' k" := (bind c (fun _ => k))
(at level 90, right associativity).

End Mongobject.

(** ** Reading of the connection arguments *)

(** Encrypted transport is asked for by the keyword [ssl=True] or by the
    option [ssl=true] of the URI. *)
Definition requests_encryption (a : client_args) : bool :=
  match ca_ssl a with
  | Some true => true
  | _ => match ca_host a with
         | Some h => match String.index 0 "ssl=true" h with
                     | Some _ => true
                     | None => false
                     end
         | None => false
         end
  end.

Definition by_uri (u : string) : client_args :=
  {| ca_host := Some u; ca_port := None; ca_ssl := Some true |}.
Definition by_host_port (h : string) (p : Z) : client_args :=
  {| ca_host := Some h; ca_port := Some p; ca_ssl := Some true |}.
Definition by_host (h : string) : client_args :=
  {| ca_host := Some ("mongodb://" +:+ h +:+ "/?ssl=true");
     ca_port := None; ca_ssl := None |}.
Definition by_default : client_args :=
  {| ca_host := None; ca_port := None; ca_ssl := Some true |}.

(** The precedence in the words of the specification: "explicit URI
    wins; else host+port; else host-only (wrapped into a default URI
    form); else a parameterless default connection". *)
Definition spec_precedence (uri host : option string) (port : option Z)
  : client_args :=
  match uri, host, port with
  | Some u, _, _ => by_uri u
  | None, Some h, Some p => by_host_port h p
  | None, Some h, None => by_host h
  | None, None, _ => by_default
  end.

(** ** A deployment to run the class on

    A dictionary of databases, each a list of collection names.  Updates
    and replacements answer from a script, one answer per request;
    [find] answers the documents of [cursor]. *)
Module Mock.

Record deployment := {
  dbs : list (string * list string);
  answers : list UpdateResult;
  cursor : value;
  next_id : N
}.

Definition with_dbs (d : list (string * list string)) (s : deployment) :=
  {| dbs := d; answers := answers s; cursor := cursor s;
     next_id := next_id s |}.

Definition collections_of (db : string) (s : deployment) : list string :=
  match list_find (fun e => e.1 = db) (dbs s) with
  | Some (_, (_, cs)) => cs
  | None => []
  end.

Definition alter_db (db : string) (f : list string -> list string)
    (s : deployment) : deployment :=
  with_dbs (map (fun e => if String.eqb e.1 db then (e.1, f e.2) else e)
                (dbs s)) s.

Definition next_answer (s : deployment) : UpdateResult * deployment :=
  match answers s with
  | [] => ({| matched_count := 0; modified_count := 0 |}, s)
  | a :: rest =>
      (a, {| dbs := dbs s; answers := rest; cursor := cursor s;
             next_id := next_id s |})
  end.

Definition new_ids (n : nat) (s : deployment) : list value * deployment :=
  (map (fun i => VAtom (SObjectId (next_id s + N.of_nat i))) (seq 0 n),
   {| dbs := dbs s; answers := answers s; cursor := cursor s;
      next_id := next_id s + N.of_nat n |}).

Definition driver : Driver := {|
  client := client_args;
  server := deployment;
  MongoClient := fun a => a;
  client_bool := fun _ => true;
  close := fun _ s => s;
  keys := fun _ s => map fst (dbs s);
  contains := fun _ n s => bool_decide (n ∈ map fst (dbs s));
  setitem := fun _ n s =>
    with_dbs (filter (fun e => e.1 <> n) (dbs s) ++ [(n, [])]) s;
  database_keys := fun _ db s => collections_of db s;
  pymongo.drop_database := fun _ db s =>
    with_dbs (filter (fun e => e.1 <> db) (dbs s)) s;
  pymongo.create_collection := fun _ db n s =>
    match n with
    | Some c => alter_db db (fun cs => cs ++ [c]) s
    | None => s
    end;
  pymongo.drop_collection := fun _ db c s =>
    alter_db db (filter (fun x => x <> c)) s;
  insert_one := fun _ _ _ _ s =>
    let (ids, s') := new_ids 1 s in
    ({| inserted_id := default None_ (head ids) |}, s');
  insert_many := fun _ _ _ docs s =>
    let (ids, s') := new_ids (length docs) s in
    ({| inserted_ids := ids |}, s');
  replace_one := fun _ _ _ _ _ _ s => next_answer s;
  update_one := fun _ _ _ _ _ _ s => next_answer s;
  update_many := fun _ _ _ _ _ _ s => next_answer s;
  delete_one := fun _ _ _ _ s => ({| deleted_count := 0 |}, s);
  delete_many := fun _ _ _ _ s => ({| deleted_count := 0 |}, s);
  pymongo.find := fun _ _ _ _ _ _ _ _ s => (cursor s, s);
  find_one := fun _ _ _ _ _ _ _ s => (None_, s);
  find_one_and_delete := fun _ _ _ _ _ _ _ s => (None_, s);
  find_one_and_replace := fun _ _ _ _ _ _ _ _ _ _ s => (None_, s);
  find_one_and_update := fun _ _ _ _ _ _ _ _ _ _ s => (None_, s);
  count_documents := fun _ _ _ _ _ _ s => (0, s);
  pymongo.distinct := fun _ _ _ _ _ s => ([], s)
|}.

(** One database ["d"] holding one collection ["c"]. *)
Definition one_collection : deployment :=
  {| dbs := [("d", ["c"])]; answers := []; cursor := VList [];
     next_id := 0 |}.

(** A facade connected by default with ["d"] and ["c"] selected. *)
Definition on_d_c (s : deployment) : @Mongobject.world driver :=
  {| Mongobject.self :=
       {| Mongobject.instance := Some (@MongoClient driver by_default);
          Mongobject.database := Some "d";
          Mongobject.collection := Some "c" |};
     Mongobject.srv := s;
     Mongobject.log := [] |}.

Definition script (l : list (nat * nat)) (s : deployment) : deployment :=
  {| dbs := dbs s;
     answers := map (fun mn => {| matched_count := mn.1;
                                  modified_count := mn.2 |}) l;
     cursor := cursor s; next_id := next_id s |}.

Definition holding (docs : list value) (s : deployment) : deployment :=
  {| dbs := dbs s; answers := answers s; cursor := VList docs;
     next_id := next_id s |}.

Definition listing : @Listing driver :=
  @Build_Listing driver
    (fun _ _ => VDict [("version", VAtom (SStr "4.2"))])
    (fun _ (s : @server driver) => map fst (dbs s))
    (fun _ db _ (s : @server driver) => collections_of db s).

Definition ready : @Mongobject.world driver := on_d_c one_collection.

Definition scripted (l : list (nat * nat)) : @Mongobject.world driver :=
  on_d_c (script l one_collection).

Definition a_is (n : Z) : value := VDict [("a", VAtom (SInt n))].

Definition with_id (i n : Z) : value :=
  VDict [("_id", VAtom (SInt i)); ("a", VAtom (SInt n))].

End Mock.

(** * Properties *)

Import Mongobject.

Section Claims.
Context `{drv : Driver}.

Ltac run := unfold bind, ret, lift, getattr, observe, call, command,
                   get_self, set_self in *; simpl in *.

Lemma is_None_false (v : value) : is_None v = false <-> v <> None_.
Proof.
  unfold None_. destruct v as [[]| |]; simpl; split; intros H;
    try reflexivity; try discriminate; try congruence.
Qed.

(** A successful check reads all three attributes and changes
    nothing. *)
Lemma check_collection_true (w : world) :
  active w ->
  exists cl db c,
    selected w cl db c /\
    db ∈ keys cl (srv w) /\ c ∈ database_keys cl db (srv w) /\
    _check_collection w = (Ret true, w).
Proof.
  unfold active, _check_collection, _check_database, selected.
  destruct w as [[i d c] s l]. run.
  destruct d as [db|]; simpl; [|discriminate].
  destruct i as [cl|]; simpl; [|discriminate].
  case_bool_decide as Hdb; simpl; [|discriminate].
  destruct c as [c|]; simpl; [|discriminate].
  case_bool_decide as Hc; simpl; [|discriminate].
  intros _. exists cl, db, c. repeat split; assumption.
Qed.

Lemma check_collection_total (w : world) :
  exists o, _check_collection w = (o, w) /\ o <> Running.
Proof.
  unfold _check_collection, _check_database.
  destruct w as [[i d c] s l]. run.
  destruct d as [db|]; simpl; [|eexists; split; [reflexivity|discriminate]].
  destruct i as [cl|]; simpl; [|eexists; split; [reflexivity|discriminate]].
  case_bool_decide as Hdb; simpl;
    [|eexists; split; [reflexivity|discriminate]].
  destruct c as [c|]; simpl; eexists; (split; [reflexivity|discriminate]).
Qed.

(** A request on a selected collection goes to the driver. *)
Lemma request_selected {A} (w : world) (cl : client) (db c : string)
    (f : client -> string -> string -> server -> A * server)
    (q : A -> pymongo.request) :
  selected w cl db c ->
  request f q w =
    (Ret (f cl db c (srv w)).1,
     answered w (f cl db c (srv w)).2
              (OnCollection db c (q (f cl db c (srv w)).1))).
Proof.
  unfold selected, request. destruct w as [o s l]. simpl. intros ->.
  run. destruct (f cl db c s); reflexivity.
Qed.

Lemma negb_is_None_true (v : value) :
  negb (is_None v) = true <-> v <> None_.
Proof. rewrite negb_true_iff. apply is_None_false. Qed.

Lemma log_grows (w : world) (s : server) (ev : event) :
  log w <> log (answered w s ev).
Proof.
  simpl. intros H. apply (f_equal length) in H.
  rewrite length_app in H. simpl in H. lia.
Qed.

(** C9: [insert] with an empty document or an empty list returns
    [False] and leaves the world, log included, as it was: no request
    reaches the driver, whatever is selected. *)
Theorem insert_empty_is_refused (w : world) :
  insert (VDict []) w = (Ret false, w) /\
  insert (VList []) w = (Ret false, w).
Proof. split; reflexivity. Qed.

(** C10: with an active database and collection, [insert] with a list
    of exactly one element sends that element through [insert_one],
    and returns [True] iff the answer carries an identifier. *)
Theorem insert_singleton_list (w : world) (doc : value) :
  active w ->
  exists cl db c b,
    selected w cl db c /\
    let r := insert_one cl db c doc (srv w) in
    insert (VList [doc]) w =
      (Ret b, answered w r.2 (OnCollection db c (InsertOne doc r.1))) /\
    (b = true <-> inserted_id r.1 <> None_).
Proof.
  intros Hact.
  destruct (check_collection_true w Hact) as (cl & db & c & Hsel & _ & _ & Hck).
  exists cl, db, c. eexists. split; [exact Hsel|]. simpl. split.
  - unfold insert. simpl. unfold bind at 1. rewrite Hck. simpl.
    unfold bind at 1. unfold lift at 1. simpl.
    unfold bind at 1.
    rewrite (request_selected w cl db c _ _ Hsel). simpl. reflexivity.
  - apply negb_is_None_true.
Qed.

(** C5: with an active database and collection, [replace] and
    [update] with [only_one=True] make one single-document call and
    return [True] iff its modified count is 1; [update] with
    [only_one=False] makes one [update_many] call and returns [True]
    iff its modified count equals its matched count. *)
Theorem update_replace_success_signal (w : world) (filter doc : value)
    (upsert : bool) :
  active w ->
  exists cl db c,
    selected w cl db c /\
    (forall fuel,
       let r := replace_one cl db c filter doc upsert (srv w) in
       exists b,
         replace fuel filter doc upsert true w =
           (Ret b, answered w r.2
                     (OnCollection db c (ReplaceOne filter doc upsert r.1))) /\
         (b = true <-> modified_count r.1 = 1%nat)) /\
    (let r := update_one cl db c filter doc upsert (srv w) in
     exists b,
       update filter doc upsert true w =
         (Ret b, answered w r.2
                   (OnCollection db c (UpdateOne filter doc upsert r.1))) /\
       (b = true <-> modified_count r.1 = 1%nat)) /\
    (let r := update_many cl db c filter doc upsert (srv w) in
     exists b,
       update filter doc upsert false w =
         (Ret b, answered w r.2
                   (OnCollection db c (UpdateMany filter doc upsert r.1))) /\
       (b = true <-> modified_count r.1 = matched_count r.1)).
Proof.
  intros Hact.
  destruct (check_collection_true w Hact) as (cl & db & c & Hsel & _ & _ & Hck).
  exists cl, db, c. split; [exact Hsel|]. repeat split.
  - intros fuel r. eexists. split.
    + unfold replace. unfold bind at 1. rewrite Hck. simpl.
      unfold bind at 1.
      rewrite (request_selected w cl db c _ _ Hsel). reflexivity.
    + apply Nat.eqb_eq.
  - intros r. eexists. split.
    + unfold update. unfold bind at 1. rewrite Hck. simpl.
      unfold bind at 1.
      rewrite (request_selected w cl db c _ _ Hsel). reflexivity.
    + apply Nat.eqb_eq.
  - intros r. eexists. split.
    + unfold update. unfold bind at 1. rewrite Hck. simpl.
      unfold bind at 1.
      rewrite (request_selected w cl db c _ _ Hsel). reflexivity.
    + apply Nat.eqb_eq.
Qed.

(** C6: with an active database and collection, [insert] with one
    document (a non-empty dictionary) makes one [insert_one] call with
    it and returns [True] iff the answer carries an identifier; the empty
    document is not sent and gives [False].  [insert] with a list of
    N >= 2 documents makes one [insert_many] call and returns [True] iff
    the answer carries N identifiers. *)
Theorem insert_success_signal (w : world) :
  active w ->
  exists cl db c,
    selected w cl db c /\
    (forall d : list (string * value),
       d <> [] ->
       let r := insert_one cl db c (VDict d) (srv w) in
       exists b,
         insert (VDict d) w =
           (Ret b, answered w r.2 (OnCollection db c (InsertOne (VDict d) r.1)))
         /\ (b = true <-> inserted_id r.1 <> None_)) /\
    insert (VDict []) w = (Ret false, w) /\
    (forall docs : list value,
       (2 <= length docs)%nat ->
       let r := insert_many cl db c docs (srv w) in
       exists b,
         insert (VList docs) w =
           (Ret b, answered w r.2 (OnCollection db c (InsertMany docs r.1))) /\
         (b = true <-> length (inserted_ids r.1) = length docs)).
Proof.
  intros Hact.
  destruct (check_collection_true w Hact) as (cl & db & c & Hsel & _ & _ & Hck).
  exists cl, db, c. split; [exact Hsel|]. split; [|split].
  - intros d Hd r. destruct d as [|kv d]; [congruence|].
    eexists. split.
    + unfold insert. simpl. unfold bind at 1. rewrite Hck. simpl.
      unfold bind at 1.
      rewrite (request_selected w cl db c _ _ Hsel). reflexivity.
    + apply negb_is_None_true.
  - reflexivity.
  - intros docs Hlen r. destruct docs as [|x [|y docs]]; simpl in Hlen; try lia.
    eexists. split.
    + unfold insert. simpl. unfold bind at 1. rewrite Hck. simpl.
      unfold bind at 1.
      rewrite (request_selected w cl db c _ _ Hsel). reflexivity.
    + apply Nat.eqb_eq.
Qed.

Lemma selected_answered (w : world) (cl : client) (db c : string)
    (s : server) (ev : event) :
  selected w cl db c -> selected (answered w s ev) cl db c.
Proof. unfold selected. simpl. auto. Qed.

Lemma replace_one_answers_S (n : nat) (cl : client) (db c : string)
    (filter doc : value) (upsert : bool) (s : server) :
  replace_one_answers (S n) cl db c filter doc upsert s =
    let (a, s1) := replace_one cl db c filter doc upsert s in
    let (l, s2) := replace_one_answers n cl db c filter doc upsert s1 in
    (a :: l, s2).
Proof. reflexivity. Qed.

(** The loop follows the answers of the driver: it stops at the first
    answer with equal counts or with no modification. *)
Lemma replace_loop_run (filter doc : value) (upsert : bool) (k : nat) :
  forall (fuel : nat) (w : world) (cl : client) (db c : string),
    selected w cl db c ->
    (k < fuel)%nat ->
    let run := replace_one_answers (S k) cl db c filter doc upsert (srv w) in
    forall r,
      run.1 !! k = Some r ->
      (forall i r', (i < k)%nat -> run.1 !! i = Some r' ->
         matched_count r' <> modified_count r' /\
         modified_count r' <> 0%nat) ->
      matched_count r = modified_count r \/ modified_count r = 0%nat ->
      replace_loop fuel filter doc upsert w =
        (Ret (matched_count r =? modified_count r)%nat,
         {| self := self w; srv := run.2;
            log := log w ++
                   map (fun a => OnCollection db c
                                   (ReplaceOne filter doc upsert a)) run.1 |}).
Proof.
  induction k as [|k IH]; intros fuel w cl db c Hsel Hfuel run r Hr Hbefore Hstop.
  - destruct fuel as [|fuel]; [lia|]. subst run. simpl in *.
    unfold bind at 1. rewrite (request_selected w cl db c _ _ Hsel).
    destruct (replace_one cl db c filter doc upsert (srv w)) as [a s1].
    simpl in *. injection Hr as ->.
    destruct (Nat.eqb_spec (matched_count r) (modified_count r)) as [E|E].
    + reflexivity.
    + destruct Hstop as [Hs|Hs]; [contradiction|].
      rewrite Hs. reflexivity.
  - destruct fuel as [|fuel]; [lia|].
    subst run. cbn [replace_loop].
    rewrite replace_one_answers_S in Hr, Hbefore |- *.
    unfold bind at 1. rewrite (request_selected w cl db c _ _ Hsel).
    destruct (replace_one cl db c filter doc upsert (srv w)) as [a s1] eqn:Ea.
    cbn [fst snd].
    set (w1 := answered w s1 (OnCollection db c (ReplaceOne filter doc upsert a))).
    assert (Hsel1 : selected w1 cl db c) by (apply selected_answered; exact Hsel).
    specialize (IH fuel w1 cl db c Hsel1 ltac:(lia)).
    change (srv w1) with s1 in IH. cbn zeta in IH.
    destruct (replace_one_answers (S k) cl db c filter doc upsert s1)
      as [l s2] eqn:El.
    cbn [fst snd] in *.
    destruct (Hbefore 0%nat a ltac:(lia) eq_refl) as [Hne Hmod].
    destruct (Nat.eqb_spec (matched_count a) (modified_count a)) as [E|_];
      [contradiction|].
    destruct (Nat.eqb_spec (modified_count a) 0) as [E|_]; [contradiction|].
    rewrite (IH r Hr).
    + f_equal. unfold w1. simpl. rewrite <- app_assoc. reflexivity.
    + intros i r' Hi Hr'. apply (Hbefore (S i) r'); [lia|exact Hr'].
    + exact Hstop.
Qed.

(** C7: with an active database and collection and [only_one=False],
    [replace] issues [replace_one] calls one after the other.  If call
    number k (from 0) is the first whose matched count equals its
    modified count, or whose matched count is at least 1 with modified
    count 0, then with room for more than k rounds [replace] returns
    after exactly k+1 calls: [True] in the first case, [False] in the
    second. *)
Theorem replace_batch_loop (w : world) (filter doc : value)
    (upsert : bool) (k fuel : nat) :
  active w ->
  (k < fuel)%nat ->
  exists cl db c,
    selected w cl db c /\
    let run := replace_one_answers (S k) cl db c filter doc upsert (srv w) in
    let w' := {| self := self w; srv := run.2;
                 log := log w ++
                        map (fun a => OnCollection db c
                                        (ReplaceOne filter doc upsert a))
                            run.1 |} in
    length run.1 = S k /\
    forall r,
      run.1 !! k = Some r ->
      (forall i r', (i < k)%nat -> run.1 !! i = Some r' ->
         matched_count r' <> modified_count r' /\
         ~ ((1 <= matched_count r')%nat /\ modified_count r' = 0%nat)) ->
      (matched_count r = modified_count r ->
       replace fuel filter doc upsert false w = (Ret true, w')) /\
      ((1 <= matched_count r)%nat /\ modified_count r = 0%nat ->
       replace fuel filter doc upsert false w = (Ret false, w')).
Proof.
  intros Hact Hfuel.
  destruct (check_collection_true w Hact) as (cl & db & c & Hsel & _ & _ & Hck).
  exists cl, db, c. split; [exact Hsel|]. intros run w'. split.
  { subst run. clear. generalize (srv w). induction (S k) as [|n IH]; intros s.
    - reflexivity.
    - simpl. destruct (replace_one cl db c filter doc upsert s) as [a s1].
      specialize (IH s1).
      destruct (replace_one_answers n cl db c filter doc upsert s1).
      simpl in *. congruence. }
  intros r Hr Hbefore.
  assert (Hbefore' : forall i r', (i < k)%nat -> run.1 !! i = Some r' ->
            matched_count r' <> modified_count r' /\
            modified_count r' <> 0%nat).
  { intros i r' Hi Hr'. destruct (Hbefore i r' Hi Hr') as [Hne Hno].
    split; [exact Hne|]. intros Hz. apply Hno. split; [|exact Hz]. lia. }
  assert (Hloop : replace fuel filter doc upsert false w =
                  replace_loop fuel filter doc upsert w).
  { unfold replace. unfold bind at 1. rewrite Hck. reflexivity. }
  split.
  - intros E. rewrite Hloop.
    rewrite (replace_loop_run filter doc upsert k fuel w cl db c Hsel Hfuel
               r Hr Hbefore' (or_introl E)).
    rewrite (proj2 (Nat.eqb_eq _ _) E). reflexivity.
  - intros [Hm Hz]. rewrite Hloop.
    rewrite (replace_loop_run filter doc upsert k fuel w cl db c Hsel Hfuel
               r Hr Hbefore' (or_intror Hz)).
    destruct (Nat.eqb_spec (matched_count r) (modified_count r)) as [E|_];
      [lia|]. reflexivity.
Qed.

(** ** Operations on names that do not resolve *)

(** X23: when both names are set and one of them does not resolve,
    every data operation returns its failure value and the world is left
    as it was. *)
Lemma unresolved_selection_is_noop (w : world) :
  (_check_collection w).1 = Ret false ->
  (forall data, insert data w = (Ret false, w)) /\
  (forall fuel f d u o, replace fuel f d u o w = (Ret false, w)) /\
  (forall f d u o, update f d u o w = (Ret false, w)) /\
  (forall f o, delete f o w = (Ret false, w)) /\
  (forall f p sk l so fo d u b,
     find f p sk l so fo d u b w = (Ret [], w)) /\
  (forall f sk l, count f sk l w = (Ret (-1), w)) /\
  (forall k f, distinct k f w = (Ret [], w)).
Proof.
  intros H. destruct (check_collection_total w) as (o & Hck & _).
  rewrite Hck in H. simpl in H. subst o.
  repeat split; intros;
    unfold insert, replace, update, delete, find, find_in, count, distinct;
    unfold bind at 1; try rewrite Hck; try reflexivity.
  destruct (truthy data); [rewrite Hck|]; reflexivity.
Qed.

(** Reading an attribute that was never assigned. *)
Lemma check_database_unset (w : world) :
  database (self w) = None ->
  _check_database w = (Raise AttributeError, w).
Proof.
  unfold _check_database, bind, getattr. intros ->. reflexivity.
Qed.

Lemma check_collection_unset (w : world) :
  database (self w) = None ->
  _check_collection w = (Raise AttributeError, w).
Proof.
  intros H. unfold _check_collection. unfold bind at 1.
  rewrite (check_database_unset w H). reflexivity.
Qed.

(** C1 (as the code behaves): on an object constructed without a
    database, [self.database] was never assigned, and every data
    operation given something to do raises [AttributeError] instead of
    returning its failure value. *)
Theorem unselected_database_raises (s : server) (filter doc : value)
    (upsert only_one : bool) (fuel : nat) (key : string) :
  let w := (__init__ None None None None None (fresh s)).2 in
  (__init__ None None None None None (fresh s)).1 = Ret tt /\
  (insert (VDict [("a", VAtom (SInt 1))]) w).1 = Raise AttributeError /\
  (replace fuel filter doc upsert only_one w).1 = Raise AttributeError /\
  (update filter doc upsert only_one w).1 = Raise AttributeError /\
  (delete filter only_one w).1 = Raise AttributeError /\
  (find filter None_ 0 0 None_ (VAtom (SInt 1)) doc upsert true w).1
    = Raise AttributeError /\
  (count filter 0 0 w).1 = Raise AttributeError /\
  (distinct key filter w).1 = Raise AttributeError.
Proof.
  intros w.
  assert (H : _check_collection w = (Raise AttributeError, w))
    by (apply check_collection_unset; reflexivity).
  split; [reflexivity|].
  repeat split;
    unfold insert, replace, update, delete, find, find_in, count, distinct;
    simpl truthy; cbv iota; unfold bind at 1; rewrite H; reflexivity.
Qed.

(** ** Dropping *)

Lemma check_database_true (w : world) :
  (_check_database w).1 = Ret true ->
  exists cl db,
    instance (self w) = Some cl /\ database (self w) = Some db /\
    _check_database w = (Ret true, w).
Proof.
  unfold _check_database. destruct w as [[i d c] s l]. run.
  destruct d as [db|]; simpl; [|discriminate].
  destruct i as [cl|]; simpl; [|discriminate].
  case_bool_decide; simpl; [|discriminate].
  intros _. exists cl, db. repeat split.
Qed.

(** C2 (as the code behaves): [drop_database] on a database that
    exists asks the driver to drop it and then calls the setters with
    [None], which leave the attributes alone: the object is the same
    as before and [get_database] still answers the dropped name.
    [drop_collection] likewise keeps the collection name. *)
Theorem drop_leaves_selection (w : world) :
  ((_check_database w).1 = Ret true ->
   exists cl db,
     instance (self w) = Some cl /\ database (self w) = Some db /\
     drop_database w =
       (Ret tt, answered w (pymongo.drop_database cl db (srv w))
                  (DropDatabase db)) /\
     self (drop_database w).2 = self w /\
     (get_database (drop_database w).2).1 = Ret db) /\
  (active w ->
   exists cl db c,
     selected w cl db c /\
     drop_collection w =
       (Ret tt, answered w (pymongo.drop_collection cl db c (srv w))
                  (DropCollection db c)) /\
     self (drop_collection w).2 = self w /\
     (get_collection (drop_collection w).2).1 = Ret c).
Proof.
  split.
  - intros H.
    destruct (check_database_true w H) as (cl & db & Hi & Hd & Hck).
    exists cl, db. split; [exact Hi|]. split; [exact Hd|].
    assert (E : drop_database w =
                (Ret tt, answered w (pymongo.drop_database cl db (srv w))
                           (DropDatabase db))).
    { unfold drop_database. unfold bind at 1. rewrite Hck. simpl.
      unfold bind, getattr. rewrite Hi, Hd. reflexivity. }
    rewrite E. simpl. split; [reflexivity|]. split; [reflexivity|].
    unfold get_database, getattr. simpl. rewrite Hd. reflexivity.
  - intros H.
    destruct (check_collection_true w H) as (cl & db & c & Hsel & _ & _ & Hck).
    exists cl, db, c. split; [exact Hsel|].
    assert (E : drop_collection w =
                (Ret tt, answered w (pymongo.drop_collection cl db c (srv w))
                           (DropCollection db c))).
    { unfold drop_collection. unfold bind at 1. rewrite Hck. simpl.
      unfold selected in Hsel. clear Hck H.
      destruct w as [o s l]. simpl in Hsel. subst o. reflexivity. }
    rewrite E. simpl. split; [reflexivity|]. split; [reflexivity|].
    unfold get_collection, getattr. simpl. unfold selected in Hsel.
    rewrite Hsel. reflexivity.
Qed.

(** ** [find] *)

(** With a collection that resolves, [find] gets as far as the first
    comparison [find_option == Mongobject.FIND]; the class has no such
    attribute, whatever [find_option] is. *)
Lemma find_active (w : world) (filter projection : value) (skip limit : Z)
    (sort find_option document : value) (upsert before : bool) :
  active w ->
  find filter projection skip limit sort find_option document upsert before w
    = (Raise AttributeError, w).
Proof.
  intros Hact.
  destruct (check_collection_true w Hact) as (cl & db & c & _ & _ & _ & Hck).
  unfold find, find_in. unfold bind at 1. rewrite Hck. reflexivity.
Qed.

(** C3 (as the code behaves): with an active collection, [find] in
    plain mode returns no mapping: it raises [AttributeError] before
    any request reaches the driver. *)
Theorem find_plain_raises (w : world) (filter projection : value)
    (skip limit : Z) (sort document : value) (upsert before : bool) :
  active w ->
  find filter projection skip limit sort (VAtom (SInt 1)) document
       upsert before w
    = (Raise AttributeError, w).
Proof. apply find_active. Qed.

(** C4 (as the code behaves): with an active collection, [find]
    raises for every selector, the ones that are none of the five modes
    included; the final [else: return {}] is never reached. *)
Theorem find_raises_for_every_selector (w : world)
    (filter projection : value) (skip limit : Z)
    (sort find_option document : value) (upsert before : bool) :
  active w ->
  is_Raise (find filter projection skip limit sort find_option document
                 upsert before w).1 = true /\
  (find filter projection skip limit sort find_option document
        upsert before w).1 <> Ret [].
Proof.
  intros Hact. rewrite (find_active _ _ _ _ _ _ _ _ _ _ Hact).
  split; [reflexivity|discriminate].
Qed.

(** *** The result loop

    Behind the failing lookup, the loop deletes ['_id'] from the
    document and then asks the same document for ['_id']: the key is
    always [None]. *)

Lemma lookup_key_remove_key (k : string) (d : list (string * value)) :
  lookup_key k (remove_key k d) = None.
Proof.
  unfold remove_key. induction d as [|[k' v] d IH]; [reflexivity|].
  rewrite filter_cons. simpl. case_decide as E.
  - simpl. rewrite E. exact IH.
  - exact IH.
Qed.

Lemma delitem_then_get (h h1 : store) (r : ref) (k : string) :
  delitem h r k = Ret h1 -> get_method h1 r k = Ret None_.
Proof.
  unfold delitem, get_method, store, ref in *.
  destruct (h !! r) as [[a|l|d]|] eqn:E; try discriminate.
  destruct (has_key k d); try discriminate.
  intros [= <-].
  rewrite list_lookup_insert_eq by (eapply lookup_lt_Some; exact E).
  rewrite lookup_key_remove_key. reflexivity.
Qed.

Lemma dict_set_keys (k : scalar) (r : ref) (fr : list (scalar * ref))
    (P : scalar -> Prop) :
  P k -> Forall (fun kr => P kr.1) fr ->
  Forall (fun kr => P kr.1) (dict_set k r fr).
Proof.
  intros Hk. induction fr as [|[k' r'] fr IH]; intros Hfr; simpl.
  - repeat constructor. exact Hk.
  - inversion Hfr as [|? ? Hhd Htl]; subst.
    destruct (scalar_eqb k' k); constructor; auto.
Qed.

Lemma process_result_keys (items : list value) :
  forall (h h' : store) (fr fr' : list (scalar * ref)),
    process_result items h fr = Ret (h', fr') ->
    Forall (fun kr => kr.1 = SNone) fr ->
    Forall (fun kr => kr.1 = SNone) fr'.
Proof.
  induction items as [|x items IH]; intros h h' fr fr' H Hfr; simpl in H.
  - injection H as <- <-. exact Hfr.
  - destruct (delitem (h ++ [x]) (length h) "_id") as [h1| |] eqn:Ed;
      try discriminate.
    simpl in H. rewrite (delitem_then_get _ _ _ _ Ed) in H. simpl in H.
    apply (IH _ _ _ _ H).
    apply (dict_set_keys _ _ _ (fun k => k = SNone)); [reflexivity|exact Hfr].
Qed.

(** Whatever the cursor yields, a dictionary built by the loop has no
    key other than [None]. *)
Lemma find_result_of_keys (result : value) (m : list (scalar * value)) :
  find_result_of result = Ret m -> Forall (fun kv => kv.1 = SNone) m.
Proof.
  unfold find_result_of. destruct (py_iter result) as [items| |];
    try discriminate. simpl.
  destruct (process_result items [] []) as [[h fr]| |] eqn:E;
    try discriminate. simpl.
  intros [= <-]. unfold snapshot. rewrite Forall_map. simpl.
  apply (process_result_keys _ _ _ _ _ E). constructor.
Qed.

(** With the five constants bound in the class, plain mode would reach
    the loop, and every key of its result would be [None]. *)
Lemma find_with_constants_keys (w : world) (filter projection : value)
    (skip limit : Z) (sort document : value) (upsert before : bool)
    (m : list (scalar * value)) :
  (find_in Mongobject_dict_with_constants filter projection skip limit sort
           (VAtom (SInt 1)) document upsert before w).1 = Ret m ->
  Forall (fun kv => kv.1 = SNone) m.
Proof.
  unfold find_in. unfold bind at 1.
  destruct (check_collection_total w) as (o & -> & _).
  destruct o as [[|]| |]; simpl; try discriminate.
  - unfold select_result. unfold bind at 1 2. simpl.
    unfold bind at 1.
    destruct (request _ _ w) as [[r| |] w1]; simpl; try discriminate.
    unfold lift. simpl. apply find_result_of_keys.
  - intros [= <-]. constructor.
Qed.

(** ** Connecting *)

Lemma connect_then_setters (a : client_args) (d c : option string)
    (w : world) :
  exists o,
    (connect a >> set_database d >> set_collection c) w =
      (Ret tt, {| self := o; srv := srv w; log := log w ++ [Connect a] |}) /\
    instance o = Some (MongoClient a).
Proof.
  unfold set_database, set_collection, connect, bind, get_self, set_self, ret.
  destruct w as [o s l].
  destruct (opt_str_bool d), (opt_str_bool c); simpl;
    eexists; split; reflexivity.
Qed.

Lemma connect_resolves (uri host : option string) (port : option Z)
    (a : client_args) :
  _connect_database uri host port = connect a ->
  resolves_to uri host port a.
Proof.
  intros E. split.
  - intros w d c. unfold connects_with, __init__. rewrite E.
    destruct (connect_then_setters a d c w) as (o & -> & Ho).
    simpl. repeat split; [exact Ho|apply last_snoc].
  - intros w [cl Hcl]. unfold connects_with, set_instance. rewrite E.
    unfold bind, getattr, connect, command, ret. rewrite Hcl.
    destruct (client_bool cl); simpl; rewrite ?Hcl; simpl;
      repeat split; apply last_snoc.
Qed.

Lemma substring_all (s : string) :
  String.substring 0 (String.length s) s = s.
Proof. induction s as [|a s IH]; simpl; [reflexivity|]. f_equal. exact IH. Qed.

Lemma string_app_cons (x : Ascii.ascii) (a b : string) :
  String x a +:+ b = String x (a +:+ b).
Proof. reflexivity. Qed.

Lemma substring_after (p q : string) :
  String.substring (String.length p) (String.length q) (p +:+ q) = q.
Proof.
  induction p as [|a p IH]; [apply substring_all|].
  rewrite string_app_cons. simpl. exact IH.
Qed.

Lemma string_app_assoc (a b c : string) : (a +:+ b) +:+ c = a +:+ (b +:+ c).
Proof.
  induction a as [|x a IH]; [reflexivity|].
  rewrite !string_app_cons, IH. reflexivity.
Qed.

(** The host-only form carries the option [ssl=true]. *)
Lemma by_host_requests_encryption (h : string) :
  requests_encryption (by_host h) = true.
Proof.
  unfold requests_encryption, by_host. cbn [ca_ssl ca_host].
  destruct (String.index 0 "ssl=true" ("mongodb://" +:+ h +:+ "/?ssl=true"))
    eqn:E; [reflexivity|].
  exfalso.
  apply (String.index_correct3 0 (String.length ("mongodb://" +:+ h +:+ "/?")))
    in E; [|discriminate|lia].
  apply E.
  change "/?ssl=true" with ("/?" +:+ "ssl=true").
  rewrite <- (string_app_assoc h "/?" "ssl=true").
  rewrite <- (string_app_assoc "mongodb://" (h +:+ "/?") "ssl=true").
  apply (substring_after ("mongodb://" +:+ h +:+ "/?") "ssl=true").
Qed.

Lemma str_bool_true (h : string) : h <> "" -> str_bool h = true.
Proof. destruct h; [congruence|reflexivity]. Qed.

(** C8 (amended): construction and [set_instance] connect by the URI
    when it starts with ["mongodb://"]; else by host and port when the
    host is not empty and the port is not 0; else by the non-empty host
    alone, wrapped as ["mongodb://" + host + "/?ssl=true"]; else, when
    neither a host nor a URI is given, by a call without address.  In
    each of these branches encrypted transport is asked for. *)
Theorem connection_precedence (uri host : option string) (port : option Z) :
  (forall u,
     uri = Some u -> String.prefix "mongodb://" u = true ->
     resolves_to uri host port (by_uri u) /\
     requests_encryption (by_uri u) = true) /\
  (forall h p,
     (forall u, uri = Some u -> String.prefix "mongodb://" u = false) ->
     host = Some h -> h <> "" -> port = Some p -> p <> 0 ->
     resolves_to uri host port (by_host_port h p) /\
     requests_encryption (by_host_port h p) = true) /\
  (forall h,
     (forall u, uri = Some u -> String.prefix "mongodb://" u = false) ->
     host = Some h -> h <> "" -> opt_int_bool port = false ->
     resolves_to uri host port (by_host h) /\
     requests_encryption (by_host h) = true) /\
  (opt_str_bool uri = false -> opt_str_bool host = false ->
   resolves_to uri host port by_default /\
   requests_encryption by_default = true).
Proof.
  assert (Hno : (forall u, uri = Some u ->
                   String.prefix "mongodb://" u = false) ->
                match uri with
                | Some u => String.prefix "mongodb://" u
                | None => false
                end = false) by (intros H; destruct uri; auto).
  split; [|split; [|split]].
  - intros u Hu Hp. split; [|reflexivity].
    apply connect_resolves. unfold _connect_database. subst uri.
    rewrite Hp. reflexivity.
  - intros h p Hu Hh Hne Hport Hp. split; [|reflexivity].
    apply connect_resolves. unfold _connect_database.
    rewrite (Hno Hu). subst host port. simpl.
    rewrite (str_bool_true h Hne).
    destruct (Z.eqb_spec p 0); [contradiction|reflexivity].
  - intros h Hu Hh Hne Hport. split; [|apply by_host_requests_encryption].
    apply connect_resolves. unfold _connect_database.
    rewrite (Hno Hu). subst host. simpl. rewrite (str_bool_true h Hne).
    rewrite Hport. reflexivity.
  - intros Hu Hh. split; [|reflexivity].
    apply connect_resolves. unfold _connect_database.
    assert (E : match uri with
                | Some u => String.prefix "mongodb://" u
                | None => false
                end = false).
    { destruct uri as [[|]|]; [reflexivity|discriminate|reflexivity]. }
    rewrite E, Hu, Hh. reflexivity.
Qed.

End Claims.

(** * Runs on the deployment [Mock] *)

Section Runs.
#[local] Existing Instance Mock.driver.

Ltac pin H :=
  unfold selected in H; simpl in H; injection H as <- <- <-.

Lemma insert_singleton_list_witness :
  active Mock.ready /\
  (insert (VList [Mock.a_is 1]) Mock.ready).1 = Ret true /\
  log (insert (VList [Mock.a_is 1]) Mock.ready).2 =
    [OnCollection "d" "c"
       (InsertOne (Mock.a_is 1) {| inserted_id := VAtom (SObjectId 0) |})].
Proof.
  assert (Ha : active Mock.ready) by reflexivity.
  split; [exact Ha|].
  destruct (insert_singleton_list Mock.ready (Mock.a_is 1) Ha)
    as (cl & db & c & b & Hsel & Hrun & Hb).
  pin Hsel. rewrite Hrun. simpl. split; [|reflexivity].
  f_equal. apply Hb. discriminate.
Defined.

Lemma update_replace_success_signal_witness :
  active (Mock.scripted [(1, 1)%nat]) /\
  (replace 0 None_ (Mock.a_is 1) false true (Mock.scripted [(1, 1)%nat])).1
    = Ret true /\
  (update None_ (Mock.a_is 1) false true (Mock.scripted [(1, 1)%nat])).1
    = Ret true /\
  (update None_ (Mock.a_is 1) false false (Mock.scripted [(1, 1)%nat])).1
    = Ret true.
Proof.
  assert (Ha : active (Mock.scripted [(1, 1)%nat])) by reflexivity.
  split; [exact Ha|].
  destruct (update_replace_success_signal
              (Mock.scripted [(1, 1)%nat]) None_ (Mock.a_is 1) false Ha)
    as (cl & db & c & Hsel & Hrep & Hone & Hmany).
  pin Hsel.
  destruct (Hrep 0%nat) as (b1 & E1 & Hb1).
  destruct Hone as (b2 & E2 & Hb2).
  destruct Hmany as (b3 & E3 & Hb3).
  rewrite E1, E2, E3. simpl.
  repeat split; f_equal; [apply Hb1|apply Hb2|apply Hb3]; reflexivity.
Defined.

Lemma insert_success_signal_witness :
  active Mock.ready /\
  [("a", VAtom (SInt 1))] <> [] /\
  insert (Mock.a_is 1) Mock.ready =
    (Ret true,
     answered Mock.ready (Mock.new_ids 1 Mock.one_collection).2
       (OnCollection "d" "c"
          (InsertOne (Mock.a_is 1)
                     {| inserted_id := VAtom (SObjectId 0) |}))) /\
  (2 <= length [Mock.a_is 1; Mock.a_is 2])%nat /\
  (insert (VList [Mock.a_is 1; Mock.a_is 2]) Mock.ready).1 = Ret true.
Proof.
  assert (Ha : active Mock.ready) by reflexivity.
  assert (Hd : [("a", VAtom (SInt 1))] <> []) by discriminate.
  assert (Hn : (2 <= length [Mock.a_is 1; Mock.a_is 2])%nat) by (simpl; lia).
  split; [exact Ha|]. split; [exact Hd|].
  destruct (insert_success_signal Mock.ready Ha)
    as (cl & db & c & Hsel & Hone & _ & Hmany).
  pin Hsel.
  destruct (Hone [("a", VAtom (SInt 1))] Hd) as (b1 & E1 & Hb1).
  destruct (Hmany [Mock.a_is 1; Mock.a_is 2] Hn) as (b2 & E2 & Hb2).
  split; [|split; [exact Hn|]].
  - unfold Mock.a_is at 1. rewrite E1.
    rewrite (proj2 Hb1) by discriminate. reflexivity.
  - rewrite E2. simpl. f_equal. apply Hb2. reflexivity.
Defined.

(** Three rounds: two answers that modify part of what they match,
    then an answer with equal counts. *)
Lemma replace_batch_loop_witness :
  active (Mock.scripted [(3, 1); (2, 1); (1, 1)]%nat) /\
  (2 < 3)%nat /\
  replace 3 None_ (Mock.a_is 1) false false
          (Mock.scripted [(3, 1); (2, 1); (1, 1)]%nat) =
    (Ret true,
     {| self := self Mock.ready; srv := Mock.one_collection;
        log := map (fun mn => OnCollection "d" "c"
                      (ReplaceOne None_ (Mock.a_is 1) false
                         {| matched_count := mn.1;
                            modified_count := mn.2 |}))
                   [(3, 1); (2, 1); (1, 1)]%nat |}).
Proof.
  assert (Ha : active (Mock.scripted [(3, 1); (2, 1); (1, 1)]%nat))
    by reflexivity.
  split; [exact Ha|]. split; [lia|].
  destruct (replace_batch_loop
              (Mock.scripted [(3, 1); (2, 1); (1, 1)]%nat)
              None_ (Mock.a_is 1) false 2 3 Ha ltac:(lia))
    as (cl & db & c & Hsel & _ & Hrun).
  pin Hsel.
  destruct (Hrun {| matched_count := 1; modified_count := 1 |} eq_refl)
    as [Htrue _].
  - intros [|[|i]] r' Hi Hr'; [| |lia];
      vm_compute in Hr'; injection Hr' as <-; simpl;
      (split; [discriminate|intros [_ H]; discriminate]).
  - rewrite (Htrue eq_refl). reflexivity.
Defined.

(** Two rounds: the second answer matches and modifies nothing. *)
Example replace_batch_gives_up :
  (replace 9 None_ (Mock.a_is 1) false false
           (Mock.scripted [(3, 1); (2, 0); (1, 1)]%nat)).1 = Ret false /\
  length (log (replace 9 None_ (Mock.a_is 1) false false
                 (Mock.scripted [(3, 1); (2, 0); (1, 1)]%nat)).2) = 2%nat.
Proof. split; reflexivity. Qed.

(** Answers that never settle use up any bound. *)
Example replace_batch_keeps_going :
  (replace 4 None_ (Mock.a_is 1) false false
           (Mock.scripted [(3, 1); (3, 1); (3, 1); (3, 1)]%nat)).1 = Running.
Proof. reflexivity. Qed.

Lemma drop_leaves_selection_witness :
  (_check_database Mock.ready).1 = Ret true /\
  active Mock.ready /\
  self (drop_database Mock.ready).2 = self Mock.ready /\
  (get_database (drop_database Mock.ready).2).1 = Ret "d" /\
  self (drop_collection Mock.ready).2 = self Mock.ready /\
  (get_collection (drop_collection Mock.ready).2).1 = Ret "c".
Proof.
  assert (Hd : (_check_database Mock.ready).1 = Ret true) by reflexivity.
  assert (Ha : active Mock.ready) by reflexivity.
  split; [exact Hd|]. split; [exact Ha|].
  destruct (drop_leaves_selection Mock.ready) as [H1 H2].
  destruct (H1 Hd) as (cl & db & _ & Hdb & _ & Hs & Hg).
  destruct (H2 Ha) as (cl' & db' & c' & Hsel & _ & Hs' & Hg').
  pin Hsel. simpl in Hdb. injection Hdb as <-.
  repeat split; assumption.
Defined.

(** After the drop the database is gone from the deployment, so an
    insert is refused; the names are still there. *)
Example insert_after_drop_database :
  (insert (Mock.a_is 1) (drop_database Mock.ready).2).1 = Ret false /\
  database (self (drop_database Mock.ready).2) = Some "d" /\
  collection (self (drop_database Mock.ready).2) = Some "c".
Proof. repeat split; reflexivity. Qed.

Lemma find_plain_raises_witness :
  active Mock.ready /\
  find (VDict []) None_ 0 0 None_ (VAtom (SInt 1)) (VDict []) false true
       Mock.ready = (Raise AttributeError, Mock.ready).
Proof.
  assert (Ha : active Mock.ready) by reflexivity.
  split; [exact Ha|]. apply find_plain_raises. exact Ha.
Defined.

Lemma find_raises_for_every_selector_witness :
  active Mock.ready /\
  is_Raise (find (VDict []) None_ 0 0 None_ (VAtom (SInt 99)) (VDict [])
                 false true Mock.ready).1 = true.
Proof.
  assert (Ha : active Mock.ready) by reflexivity.
  split; [exact Ha|].
  apply (find_raises_for_every_selector Mock.ready
           (VDict []) None_ 0 0 None_ (VAtom (SInt 99)) (VDict [])
           false true Ha).
Defined.

(** The result loop on two documents, reached with the constants
    bound: one entry, under the key [None], holding the last
    document. *)
Example find_with_constants_on_two_documents :
  (find_in Mongobject_dict_with_constants
           (VDict []) None_ 0 0 None_ (VAtom (SInt 1)) (VDict []) false true
           (Mock.on_d_c (Mock.holding [Mock.with_id 7 1; Mock.with_id 8 2]
                                      Mock.one_collection))).1
  = Ret [(SNone, Mock.a_is 2)].
Proof. reflexivity. Qed.

(** An object constructed without names: [count] does not answer -1. *)
Example count_on_new_object :
  (count (VDict []) 0 0
         (__init__ None None None None None
                   (fresh Mock.one_collection)).2).1
  = Raise AttributeError.
Proof. reflexivity. Qed.

(** Names that are set and do not resolve: the failure values. *)
Example count_on_missing_database :
  count (VDict []) 0 0
        (__init__ None None None (Some "nowhere") (Some "c")
                  (fresh Mock.one_collection)).2
  = (Ret (-1),
     (__init__ None None None (Some "nowhere") (Some "c")
               (fresh Mock.one_collection)).2).
Proof. reflexivity. Qed.

(** ** Connecting *)

(** C8 (refuted as stated): a URI that does not start with
    ["mongodb://"] is given together with a host and a port; the
    connection is not the one the stated precedence chooses. *)
Lemma uri_without_prefix_loses :
  ~ resolves_to (Some "mongodb+srv://cluster0.example.net")
                (Some "localhost") (Some 27017)
                (spec_precedence (Some "mongodb+srv://cluster0.example.net")
                                 (Some "localhost") (Some 27017)).
Proof.
  intros [H _].
  destruct (H (@fresh Mock.driver Mock.one_collection) None None)
    as (_ & Hi & _).
  vm_compute in Hi. discriminate Hi.
Qed.

Lemma connection_precedence_witness :
  resolves_to (Some "mongodb://db.example.net") (Some "localhost")
              (Some 27017) (by_uri "mongodb://db.example.net") /\
  resolves_to (Some "mongodb+srv://cluster0.example.net") (Some "localhost")
              (Some 27017) (by_host_port "localhost" 27017) /\
  resolves_to None (Some "localhost") None (by_host "localhost") /\
  requests_encryption (by_host "localhost") = true /\
  resolves_to None None None by_default.
Proof.
  split; [|split; [|split; [|split]]].
  - apply (proj1 (connection_precedence
                    (Some "mongodb://db.example.net") (Some "localhost")
                    (Some 27017)) "mongodb://db.example.net");
      reflexivity.
  - apply (proj1 (proj2 (connection_precedence
                    (Some "mongodb+srv://cluster0.example.net")
                    (Some "localhost") (Some 27017))) "localhost" 27017);
      try reflexivity; try discriminate.
    intros u [= <-]. reflexivity.
  - apply (proj1 (proj2 (proj2 (connection_precedence
                    None (Some "localhost") None))) "localhost");
      try reflexivity; discriminate.
  - apply (proj1 (proj2 (proj2 (connection_precedence
                    None (Some "localhost") None))) "localhost");
      try reflexivity; discriminate.
  - apply (proj2 (proj2 (proj2 (connection_precedence None None None))));
      reflexivity.
Defined.

(** A URI without the prefix and no host: the host-only branch is
    taken and concatenates [None]. *)
Example uri_without_prefix_alone :
  (_connect_database (Some "localhost:27017") None None
                     (fresh Mock.one_collection)).1 = Raise TypeError.
Proof. reflexivity. Qed.

End Runs.

(** * More of the class *)

Section More.
Context `{drv : Driver} `{lst : !Listing}.

(** ** Names *)

(** X1: a setter given a non-empty name stores it, and the getter then
    returns it, the other attributes untouched; a setter given [None]
    or the empty string changes nothing. *)
Theorem setter_then_getter (w : world) :
  (forall n : string,
     n <> "" ->
     set_database (Some n) w =
       (Ret tt, {| self := {| instance := instance (self w);
                              database := Some n;
                              collection := collection (self w) |};
                   srv := srv w; log := log w |}) /\
     (get_database (set_database (Some n) w).2).1 = Ret n /\
     set_collection (Some n) w =
       (Ret tt, {| self := {| instance := instance (self w);
                              database := database (self w);
                              collection := Some n |};
                   srv := srv w; log := log w |}) /\
     (get_collection (set_collection (Some n) w).2).1 = Ret n) /\
  (forall o : option string,
     opt_str_bool o = false ->
     set_database o w = (Ret tt, w) /\ set_collection o w = (Ret tt, w)).
Proof.
  split.
  - intros n Hn. destruct n as [|a n]; [congruence|].
    repeat split; reflexivity.
  - intros o Ho. unfold set_database, set_collection. rewrite Ho.
    split; reflexivity.
Qed.

(** ** Connecting *)

(** Either a client is made, or the host-only branch is entered
    without a host. *)
Lemma connect_database_cases (uri host : option string) (port : option Z) :
  (exists a, _connect_database uri host port = connect a) \/
  (_connect_database uri host port = raise TypeError /\
   host = None /\ opt_str_bool uri = true /\
   forall u, uri = Some u -> String.prefix "mongodb://" u = false).
Proof.
  unfold _connect_database.
  destruct (match uri with
            | Some u => String.prefix "mongodb://" u
            | None => false
            end) eqn:Ep; [left; eexists; reflexivity|].
  destruct (opt_str_bool host && opt_int_bool port) eqn:Ehp;
    [left; eexists; reflexivity|].
  destruct (opt_str_bool host || opt_str_bool uri) eqn:Eor;
    [|left; eexists; reflexivity].
  destruct host as [h|]; [left; eexists; reflexivity|].
  right. simpl in Eor. repeat split; try assumption.
  intros u ->. exact Ep.
Qed.

(** X2: what [_connect_database] raises of its own.  When no host is
    given (None) while a non-empty URI that does not start with
    ["mongodb://"] is, the host-only branch concatenates [None]:
    [TypeError] is raised before any call to [MongoClient], and nothing
    has changed.  In every other case the method comes to exactly one
    call [MongoClient(...)] and assigns what it returns; how it ends is
    then how that call ends. *)
Theorem connect_raises_before_the_call (uri host : option string)
    (port : option Z) (w : world) :
  (host = None /\ opt_str_bool uri = true /\
   (forall u, uri = Some u -> String.prefix "mongodb://" u = false) ->
   _connect_database uri host port w = (Raise TypeError, w)) /\
  (~ (host = None /\ opt_str_bool uri = true /\
      (forall u, uri = Some u -> String.prefix "mongodb://" u = false)) ->
   exists a, _connect_database uri host port w = connect a w).
Proof.
  destruct (connect_database_cases uri host port)
    as [[a E]|(E & Hh & Hu & Hp)]; rewrite E.
  - split; [|intros _; exists a; reflexivity].
    intros (-> & Hu & Hp). exfalso.
    unfold _connect_database in E.
    assert (Ep : match uri with
                 | Some u => String.prefix "mongodb://" u
                 | None => false
                 end = false) by (destruct uri; auto).
    rewrite Ep, Hu in E. simpl in E.
    apply (f_equal (fun m => (m w).1)) in E. discriminate E.
  - split; [intros _; reflexivity|].
    intros Hnot. exfalso. apply Hnot. repeat split; assumption.
Qed.

(** X3: on a new object, [__init__] that ends normally has assigned
    exactly the names that are non-empty; the getter of a name that was
    not given raises [AttributeError].  [__init__] that raises has
    assigned nothing, not even [instance], and [__del__] on that object
    raises [AttributeError]. *)
Theorem init_assigns_given_names (uri host : option string) (port : option Z)
    (d c : option string) (s : server) :
  let r := __init__ uri host port d c (fresh s) in
  (r.1 = Ret tt /\
   is_Some (instance (self r.2)) /\
   database (self r.2) = (if opt_str_bool d then d else None) /\
   collection (self r.2) = (if opt_str_bool c then c else None) /\
   (opt_str_bool d = false -> (get_database r.2).1 = Raise AttributeError) /\
   (opt_str_bool c = false -> (get_collection r.2).1 = Raise AttributeError))
  \/
  (r = (Raise TypeError, fresh s) /\
   (__del__ r.2).1 = Raise AttributeError).
Proof.
  intros r. subst r. unfold __init__.
  destruct (connect_database_cases uri host port)
    as [[a E]|(E & _)]; rewrite E.
  - left. unfold bind, connect, set_database, set_collection, get_self,
      set_self, ret, get_database, get_collection, getattr. simpl.
    destruct (opt_str_bool d) eqn:Ed, (opt_str_bool c) eqn:Ec; simpl;
      repeat split; eauto; intros; try discriminate; reflexivity.
  - right. split; reflexivity.
Qed.

(** ** Reconfiguration *)

(** X4: [set_instance] on a constructed object closes the old handle
    first, and only when the handle is true, then connects as
    [_connect_database] does; whatever the outcome, the selected names
    are the ones selected before. *)
Theorem set_instance_closes_then_connects (uri host : option string)
    (port : option Z) (w : world) (cl : client) :
  instance (self w) = Some cl ->
  let w1 := if client_bool cl then answered w (close cl (srv w)) Close
            else w in
  let r := set_instance uri host port w in
  r = _connect_database uri host port w1 /\
  srv r.2 = srv w1 /\
  database (self r.2) = database (self w) /\
  collection (self r.2) = collection (self w).
Proof.
  intros Hcl w1 r.
  assert (E : r = _connect_database uri host port w1).
  { subst r w1. unfold set_instance, bind, getattr, command, ret.
    rewrite Hcl. destruct (client_bool cl); simpl; rewrite ?Hcl; reflexivity. }
  split; [exact E|]. rewrite E.
  assert (Hw1 : database (self w1) = database (self w) /\
                collection (self w1) = collection (self w))
    by (subst w1; destruct (client_bool cl); split; reflexivity).
  destruct Hw1 as [<- <-].
  destruct (connect_database_cases uri host port) as [[a ->]|[-> _]];
    repeat split; reflexivity.
Qed.

(** X5: a reconfiguration that cannot connect (no host, a URI without
    the prefix) raises [TypeError] after the old handle was closed, and
    the object keeps that closed handle. *)
Theorem failed_set_instance_keeps_closed_handle (uri : option string)
    (port : option Z) (w : world) (cl : client) :
  instance (self w) = Some cl ->
  client_bool cl = true ->
  opt_str_bool uri = true ->
  (forall u, uri = Some u -> String.prefix "mongodb://" u = false) ->
  set_instance uri None port w =
    (Raise TypeError, answered w (close cl (srv w)) Close) /\
  instance (self (set_instance uri None port w).2) = Some cl.
Proof.
  intros Hcl Hb Hu Hp.
  assert (E : set_instance uri None port w =
              (Raise TypeError, answered w (close cl (srv w)) Close)).
  { unfold set_instance, bind, getattr, command, ret. rewrite Hcl, Hb. simpl.
    rewrite Hcl. simpl. unfold _connect_database.
    assert (Ep : match uri with
                 | Some u => String.prefix "mongodb://" u
                 | None => false
                 end = false) by (destruct uri; auto).
    rewrite Ep, Hu. reflexivity. }
  rewrite E. split; [reflexivity|exact Hcl].
Qed.

(** ** Creating and dropping *)

(** X6: [create_database] with a name the instance already contains,
    or with no name, changes nothing: an existing database is not
    selected by it.  With a new, non-empty name and a true handle it
    assigns an empty dictionary under the name and selects the name; the
    collection name selected before stays selected. *)
Theorem create_database_cases (w : world) (cl : client) :
  instance (self w) = Some cl ->
  (forall o, opt_str_bool o = false -> create_database o w = (Ret tt, w)) /\
  (forall n, contains cl n (srv w) = true ->
             create_database (Some n) w = (Ret tt, w)) /\
  (forall n,
     n <> "" -> client_bool cl = true -> contains cl n (srv w) = false ->
     create_database (Some n) w =
       (Ret tt,
        {| self := {| instance := Some cl; database := Some n;
                      collection := collection (self w) |};
           srv := setitem cl n (srv w);
           log := log w ++ [SetItem n] |})).
Proof.
  intros Hcl. destruct w as [[i d c] s l]. simpl in Hcl. subst i.
  split; [|split].
  - intros o Ho. unfold create_database, bind, getattr. simpl.
    rewrite Ho, andb_false_r. reflexivity.
  - intros n Hn. unfold create_database, bind, getattr, observe. simpl.
    destruct (client_bool cl && str_bool n); [|reflexivity].
    simpl in *. rewrite Hn. reflexivity.
  - intros n Hne Hb Hn. destruct n as [|a n]; [congruence|].
    unfold create_database, bind, getattr, observe, set_database.
    simpl in *. rewrite Hb. simpl. rewrite Hn. reflexivity.
Qed.

(** X7: [create_collection] on a database that exists always calls
    the driver, also with the default [None], and selects the name only
    when it is non-empty. *)
Theorem create_collection_on_existing_database (w : world)
    (name : option string) :
  (_check_database w).1 = Ret true ->
  exists cl db,
    instance (self w) = Some cl /\ database (self w) = Some db /\
    create_collection name w =
      (Ret tt,
       {| self := {| instance := Some cl; database := Some db;
                     collection := if opt_str_bool name then name
                                   else collection (self w) |};
          srv := pymongo.create_collection cl db name (srv w);
          log := log w ++ [CreateCollection db name] |}).
Proof.
  intros H.
  destruct (check_database_true w H) as (cl & db & Hi & Hd & Hck).
  exists cl, db. split; [exact Hi|]. split; [exact Hd|].
  unfold create_collection. unfold bind at 1. rewrite Hck. simpl.
  clear Hck H. destruct w as [[i d c] s l]. simpl in *. subst i d.
  unfold bind, getattr, command, set_collection, get_self, set_self, ret.
  simpl. destruct (opt_str_bool name); reflexivity.
Qed.

(** X8: when the selected database is not among the databases of the
    instance, [drop_database], [create_collection] and
    [drop_collection] do nothing; [drop_collection] also does nothing
    when only the collection is unknown. *)
Theorem administration_needs_existing_names (w : world) :
  ((_check_database w).1 = Ret false ->
   drop_database w = (Ret tt, w) /\
   (forall name, create_collection name w = (Ret tt, w)) /\
   drop_collection w = (Ret tt, w)) /\
  ((_check_collection w).1 = Ret false -> drop_collection w = (Ret tt, w)).
Proof.
  split.
  - intros H.
    assert (Hck : _check_database w = (Ret false, w)).
    { revert H. unfold _check_database, bind, getattr, observe, ret.
      destruct (database (self w)); simpl; [|discriminate].
      destruct (instance (self w)); simpl; [|discriminate].
      case_bool_decide; simpl; [discriminate|reflexivity]. }
    unfold drop_database, create_collection, drop_collection,
      _check_collection.
    repeat split; intros; unfold bind; rewrite Hck; reflexivity.
  - intros H. destruct (check_collection_total w) as (o & Hck & _).
    rewrite Hck in H. simpl in H. subst o.
    unfold drop_collection. unfold bind at 1. rewrite Hck. reflexivity.
Qed.

(** X9: creating a database and then a collection leaves the object
    ready for data operations, provided the driver then lists the
    database and the collection. *)
Theorem create_then_active (w : world) (cl : client) (d c : string) :
  instance (self w) = Some cl ->
  client_bool cl = true ->
  d <> "" -> c <> "" ->
  contains cl d (srv w) = false ->
  let s1 := setitem cl d (srv w) in
  let s2 := pymongo.create_collection cl d (Some c) s1 in
  d ∈ keys cl s1 -> d ∈ keys cl s2 -> c ∈ database_keys cl d s2 ->
  let r := (create_database (Some d) >> create_collection (Some c)) w in
  r.1 = Ret tt /\
  selected r.2 cl d c /\
  srv r.2 = s2 /\
  log r.2 = log w ++ [SetItem d; CreateCollection d (Some c)] /\
  active r.2.
Proof.
  intros Hcl Hb Hd Hc Hn s1 s2 H1 H2 H3 r.
  destruct (create_database_cases w cl Hcl) as (_ & _ & Hnew).
  assert (E : r = (Ret tt,
                   {| self := {| instance := Some cl; database := Some d;
                                 collection := Some c |};
                      srv := s2;
                      log := log w ++ [SetItem d; CreateCollection d (Some c)] |})).
  { subst r. unfold bind at 1. rewrite (Hnew d Hd Hb Hn).
    unfold create_collection, _check_database, bind, getattr, observe,
      command, set_collection, get_self, set_self, ret. simpl.
    rewrite (bool_decide_eq_true_2 _ H1). simpl.
    rewrite (str_bool_true c Hc). simpl.
    unfold answered. simpl. rewrite <- ?app_assoc. reflexivity. }
  rewrite E. simpl. repeat split.
  unfold active, _check_collection, _check_database, bind, getattr, observe,
    ret. simpl.
  rewrite (bool_decide_eq_true_2 _ H2). simpl.
  rewrite (bool_decide_eq_true_2 _ H3). reflexivity.
Qed.

(** ** Data operations *)

(** X10: with an active database and collection, [delete] makes one
    [delete_one] call when [only_one] is true and one [delete_many] call
    otherwise, and returns [True] iff the deleted count is positive. *)
Theorem delete_success_signal (w : world) (filter : value) :
  active w ->
  exists cl db c,
    selected w cl db c /\
    (let r := delete_one cl db c filter (srv w) in
     exists b,
       delete filter true w =
         (Ret b, answered w r.2 (OnCollection db c (DeleteOne filter r.1))) /\
       (b = true <-> (0 < deleted_count r.1)%nat)) /\
    (let r := delete_many cl db c filter (srv w) in
     exists b,
       delete filter false w =
         (Ret b, answered w r.2 (OnCollection db c (DeleteMany filter r.1))) /\
       (b = true <-> (0 < deleted_count r.1)%nat)).
Proof.
  intros Hact.
  destruct (check_collection_true w Hact) as (cl & db & c & Hsel & _ & _ & Hck).
  exists cl, db, c. split; [exact Hsel|].
  split; intros r; eexists; (split; [|apply Nat.ltb_lt]);
    unfold delete; unfold bind at 1; rewrite Hck; simpl;
    unfold bind at 1; rewrite (request_selected w cl db c _ _ Hsel);
    reflexivity.
Qed.

(** X11: with an active database and collection, [count] and
    [distinct] make one call and return its answer as it is; [count]
    then returns -1 only if the driver says so. *)
Theorem count_distinct_pass_through (w : world) (filter : value)
    (skip limit : Z) (key : string) :
  active w ->
  exists cl db c,
    selected w cl db c /\
    (let r := count_documents cl db c filter skip limit (srv w) in
     count filter skip limit w =
       (Ret r.1, answered w r.2 (OnCollection db c (CountDocuments filter r.1))))
    /\
    (let r := pymongo.distinct cl db c key filter (srv w) in
     distinct key filter w =
       (Ret r.1, answered w r.2 (OnCollection db c (Distinct key filter r.1)))).
Proof.
  intros Hact.
  destruct (check_collection_true w Hact) as (cl & db & c & Hsel & _ & _ & Hck).
  exists cl, db, c. split; [exact Hsel|].
  split; intros r; unfold count, distinct; unfold bind at 1; rewrite Hck;
    simpl; rewrite (request_selected w cl db c _ _ Hsel); reflexivity.
Qed.

(** X12: [insert] of a value that is neither a list nor a dictionary.
    A false value (the default [None], [0], [False], the empty string)
    is refused without a look at the selection.  With an active
    collection, a number, [True] or an identifier raises [TypeError] at
    [data[0]] before any call, and a non-empty string has its first
    character sent to [insert_one]. *)
Theorem insert_of_a_scalar (w : world) :
  (forall data, truthy data = false -> insert data w = (Ret false, w)) /\
  (active w ->
   (forall a, scalar_bool a = true -> (forall s, a <> SStr s) ->
              insert (VAtom a) w = (Raise TypeError, w)) /\
   (forall ch rest,
      exists cl db c,
        selected w cl db c /\
        let first := VAtom (SStr (String ch EmptyString)) in
        let r := insert_one cl db c first (srv w) in
        insert (VAtom (SStr (String ch rest))) w =
          (Ret (negb (is_None (inserted_id r.1))),
           answered w r.2 (OnCollection db c (InsertOne first r.1))))).
Proof.
  split.
  - intros data H. unfold insert. rewrite H. reflexivity.
  - intros Hact.
    destruct (check_collection_true w Hact)
      as (cl & db & c & Hsel & _ & _ & Hck).
    split.
    + intros a Ha Hs. unfold insert. simpl. rewrite Ha.
      unfold bind at 1. rewrite Hck. simpl.
      destruct a as [|b|z|s|n]; try reflexivity.
      exfalso. exact (Hs s eq_refl).
    + intros ch rest. exists cl, db, c. split; [exact Hsel|]. simpl.
      unfold insert. simpl. unfold bind at 1. rewrite Hck. simpl.
      unfold bind at 1. unfold lift at 1. simpl. unfold bind at 1.
      rewrite (request_selected w cl db c _ _ Hsel). reflexivity.
Qed.

(** *** The attributes under data operations *)

Local Notation "'keeps' m" := (forall w, self (m w).2 = self w)
  (at level 10, m at level 9, only parsing).

Lemma bind_keeps {A B} (m : M A) (f : A -> M B) :
  keeps m -> (forall a, keeps (f a)) -> keeps (bind m f).
Proof.
  intros Hm Hf w. unfold bind. specialize (Hm w).
  destruct (m w) as [[a| |] w1]; simpl in *; [|exact Hm|exact Hm].
  rewrite Hf. exact Hm.
Qed.

Lemma getattr_keeps {A} (field : object -> option A) : keeps (getattr field).
Proof. intros w. unfold getattr. destruct (field (self w)); reflexivity. Qed.

Lemma request_keeps {A}
    (f : client -> string -> string -> server -> A * server)
    (q : A -> pymongo.request) : keeps (request f q).
Proof.
  unfold request. repeat (apply bind_keeps; [apply getattr_keeps|intros ?]).
  intros w. unfold call. destruct (f _ _ _ (srv w)). reflexivity.
Qed.

Lemma check_collection_keeps : keeps _check_collection.
Proof.
  intros w. destruct (check_collection_total w) as (o & -> & _). reflexivity.
Qed.

Lemma replace_loop_keeps (fuel : nat) (f d : value) (u : bool) :
  keeps (replace_loop fuel f d u).
Proof.
  induction fuel as [|fuel IH]; [intros w; reflexivity|].
  simpl. apply bind_keeps; [apply request_keeps|].
  intros r. destruct (_ =? _)%nat; [intros w; reflexivity|].
  destruct (_ =? _)%nat; [intros w; reflexivity|exact IH].
Qed.

Lemma select_result_keeps (ns : list (string * member)) f p sk l so fo d u b :
  keeps (select_result ns f p sk l so fo d u b).
Proof.
  unfold select_result.
  repeat (apply bind_keeps; [intros w; reflexivity|intros ?];
          destruct (eq_member fo _);
          [apply bind_keeps; [apply request_keeps|intros ? w; reflexivity]|]).
  intros w; reflexivity.
Qed.

Lemma insert_keeps (data : value) : keeps (insert data).
Proof.
  unfold insert. apply bind_keeps.
  - destruct (truthy data); [apply check_collection_keeps|].
    intros w; reflexivity.
  - intros [|]; [|intros w; reflexivity].
    destruct data as [a|[|x [|y l]]|d];
      repeat first [ apply request_keeps
                   | apply bind_keeps; [|intros ?]
                   | intros w; reflexivity ].
Qed.

Lemma replace_keeps fuel f d u o : keeps (replace fuel f d u o).
Proof.
  unfold replace. apply bind_keeps; [apply check_collection_keeps|].
  intros [|]; [|intros w; reflexivity].
  destruct o; [|apply replace_loop_keeps].
  apply bind_keeps; [apply request_keeps|intros ? w; reflexivity].
Qed.

Lemma update_keeps f d u o : keeps (update f d u o).
Proof.
  unfold update. apply bind_keeps; [apply check_collection_keeps|].
  intros [|]; [|intros w; reflexivity].
  destruct o; (apply bind_keeps; [apply request_keeps|intros ? w; reflexivity]).
Qed.

Lemma delete_keeps f o : keeps (delete f o).
Proof.
  unfold delete. apply bind_keeps; [apply check_collection_keeps|].
  intros [|]; [|intros w; reflexivity].
  apply bind_keeps; [destruct o; apply request_keeps|intros ? w; reflexivity].
Qed.

Lemma find_in_keeps ns f p sk l so fo d u b :
  keeps (find_in ns f p sk l so fo d u b).
Proof.
  unfold find_in. apply bind_keeps; [apply check_collection_keeps|].
  intros [|]; [|intros w; reflexivity].
  apply bind_keeps; [apply select_result_keeps|].
  intros [r|] w; reflexivity.
Qed.

Lemma count_keeps f sk l : keeps (count f sk l).
Proof.
  unfold count. apply bind_keeps; [apply check_collection_keeps|].
  intros [|]; [apply request_keeps|intros w; reflexivity].
Qed.

Lemma distinct_keeps k f : keeps (distinct k f).
Proof.
  unfold distinct. apply bind_keeps; [apply check_collection_keeps|].
  intros [|]; [apply request_keeps|intros w; reflexivity].
Qed.

(** X13: no data operation assigns an attribute of [self]: whatever
    it is given and however it ends, the handle and the two names are
    afterwards what they were. *)
Theorem data_operations_keep_self (w : world) :
  (forall data, self (insert data w).2 = self w) /\
  (forall fuel f d u o, self (replace fuel f d u o w).2 = self w) /\
  (forall f d u o, self (update f d u o w).2 = self w) /\
  (forall f o, self (delete f o w).2 = self w) /\
  (forall ns f p sk l so fo d u b,
     self (find_in ns f p sk l so fo d u b w).2 = self w) /\
  (forall f sk l, self (count f sk l w).2 = self w) /\
  (forall k f, self (distinct k f w).2 = self w).
Proof.
  repeat split; intros.
  - apply insert_keeps.
  - apply replace_keeps.
  - apply update_keeps.
  - apply delete_keeps.
  - apply find_in_keeps.
  - apply count_keeps.
  - apply distinct_keeps.
Qed.

(** ** The replacement loop *)

Lemma replace_loop_runs_on (f d : value) (u : bool) (fuel : nat) :
  forall (w : world) (cl : client) (db c : string),
    selected w cl db c ->
    let run := replace_one_answers fuel cl db c f d u (srv w) in
    (forall r, r ∈ run.1 ->
       matched_count r <> modified_count r /\ modified_count r <> 0%nat) ->
    replace_loop fuel f d u w =
      (Running,
       {| self := self w; srv := run.2;
          log := log w ++
                 map (fun a => OnCollection db c (ReplaceOne f d u a)) run.1 |}).
Proof.
  induction fuel as [|fuel IH]; intros w cl db c Hsel run Hall.
  - subst run. simpl. rewrite app_nil_r. destruct w; reflexivity.
  - subst run. cbn [replace_loop].
    rewrite replace_one_answers_S in Hall |- *.
    unfold bind at 1. rewrite (request_selected w cl db c _ _ Hsel).
    destruct (replace_one cl db c f d u (srv w)) as [a s1] eqn:Ea.
    cbn [fst snd].
    set (w1 := answered w s1 (OnCollection db c (ReplaceOne f d u a))).
    assert (Hsel1 : selected w1 cl db c)
      by (apply selected_answered; exact Hsel).
    specialize (IH w1 cl db c Hsel1). change (srv w1) with s1 in IH.
    cbn zeta in IH.
    destruct (replace_one_answers fuel cl db c f d u s1) as [l s2] eqn:El.
    cbn [fst snd] in *.
    destruct (Hall a ltac:(left)) as [Hne Hmod].
    destruct (Nat.eqb_spec (matched_count a) (modified_count a)) as [E|_];
      [contradiction|].
    destruct (Nat.eqb_spec (modified_count a) 0) as [E|_]; [contradiction|].
    rewrite IH.
    + f_equal. unfold w1. simpl. rewrite <- app_assoc. reflexivity.
    + intros r Hr. apply Hall. right. exact Hr.
Qed.

(** X14: the batch mode of [replace] has no cap of its own: as long as
    every answer has different matched and modified counts and a
    modified count other than 0, it keeps calling [replace_one]; any
    number of rounds is used up, each round one call. *)
Theorem replace_batch_has_no_cap (w : world) (f d : value) (u : bool)
    (fuel : nat) :
  active w ->
  exists cl db c,
    selected w cl db c /\
    let run := replace_one_answers fuel cl db c f d u (srv w) in
    (forall r, r ∈ run.1 ->
       matched_count r <> modified_count r /\ modified_count r <> 0%nat) ->
    replace fuel f d u false w =
      (Running,
       {| self := self w; srv := run.2;
          log := log w ++
                 map (fun a => OnCollection db c (ReplaceOne f d u a)) run.1 |})
    /\ length run.1 = fuel.
Proof.
  intros Hact.
  destruct (check_collection_true w Hact) as (cl & db & c & Hsel & _ & _ & Hck).
  exists cl, db, c. split; [exact Hsel|]. intros run Hall. split.
  - unfold replace. unfold bind at 1. rewrite Hck. simpl.
    apply (replace_loop_runs_on f d u fuel w cl db c Hsel Hall).
  - subst run. clear. generalize (srv w).
    induction fuel as [|n IH]; intros s; [reflexivity|].
    rewrite replace_one_answers_S.
    destruct (replace_one cl db c f d u s) as [a s1].
    specialize (IH s1).
    destruct (replace_one_answers n cl db c f d u s1). simpl in *. congruence.
Qed.

(** X15: when [replace_one] answers as a single replacement does
    (it modifies no more than it matches, and matches at most one
    document), the batch mode makes exactly one call: it returns [True]
    when the counts are equal and [False] when the one matched document
    was not modified. *)
Theorem replace_batch_with_single_answers (w : world) (f d : value)
    (u : bool) (fuel : nat) :
  active w ->
  exists cl db c,
    selected w cl db c /\
    let r := replace_one cl db c f d u (srv w) in
    (modified_count r.1 <= matched_count r.1)%nat ->
    (matched_count r.1 <= 1)%nat ->
    replace (S fuel) f d u false w =
      (Ret (matched_count r.1 =? modified_count r.1)%nat,
       answered w r.2 (OnCollection db c (ReplaceOne f d u r.1))) /\
    ((matched_count r.1 =? modified_count r.1)%nat = false <->
     matched_count r.1 = 1%nat /\ modified_count r.1 = 0%nat).
Proof.
  intros Hact.
  destruct (check_collection_true w Hact) as (cl & db & c & Hsel & _ & _ & Hck).
  exists cl, db, c. split; [exact Hsel|]. intros r Hle H1. split.
  - unfold replace. unfold bind at 1. rewrite Hck. simpl.
    unfold bind at 1. rewrite (request_selected w cl db c _ _ Hsel).
    fold r. cbn [fst snd].
    destruct (Nat.eqb_spec (matched_count r.1) (modified_count r.1)) as [E|E];
      [reflexivity|].
    destruct (Nat.eqb_spec (modified_count r.1) 0) as [E0|E0];
      [reflexivity|lia].
  - rewrite Nat.eqb_neq. lia.
Qed.

(** ** The result loop of [find] *)

Lemma process_result_document (d : list (string * value)) (items : list value)
    (h : store) (fr : list (scalar * ref)) :
  has_key "_id" d = true ->
  process_result (VDict d :: items) h fr =
    process_result items (h ++ [VDict (remove_key "_id" d)])
                   (dict_set SNone (length h) fr).
Proof.
  intros Hd. cbn [process_result].
  assert (E : delitem (h ++ [VDict d]) (length h) "_id" =
              Ret (h ++ [VDict (remove_key "_id" d)])).
  { unfold delitem, store, ref in *.
    rewrite list_lookup_middle by reflexivity. rewrite Hd. f_equal.
    rewrite insert_app_r_alt by lia. rewrite Nat.sub_diag. reflexivity. }
  rewrite E. simpl. rewrite (delitem_then_get _ _ _ _ E). reflexivity.
Qed.

Lemma process_result_documents (docs : list (list (string * value))) :
  forall (h : store) (fr : list (scalar * ref)),
    Forall (fun d => has_key "_id" d = true) docs ->
    fr = [] \/ (exists r, fr = [(SNone, r)]) ->
    process_result (map VDict docs) h fr =
      Ret (h ++ map (fun d => VDict (remove_key "_id" d)) docs,
           match docs with
           | [] => fr
           | _ :: _ => [(SNone, (length h + length docs - 1)%nat)]
           end).
Proof.
  induction docs as [|d docs IH]; intros h fr Hall Hfr.
  - simpl. rewrite app_nil_r. reflexivity.
  - inversion Hall as [|? ? Hd Hrest]; subst.
    cbn [map]. rewrite (process_result_document d _ h fr Hd).
    assert (E1 : dict_set SNone (length h) fr = [(SNone, length h)])
      by (destruct Hfr as [->|[r ->]]; reflexivity).
    rewrite E1.
    rewrite (IH _ _ Hrest (or_intror (ex_intro _ (length h) eq_refl))).
    rewrite <- app_assoc. simpl. f_equal. f_equal.
    destruct docs as [|d' docs]; simpl.
    + f_equal. f_equal. lia.
    + rewrite length_app. simpl. f_equal. f_equal. lia.
Qed.

(** X16: on a cursor whose documents all carry ['_id'], the loop
    returns a dictionary with at most one entry: none for an empty
    cursor, else the last document without its ['_id'], under the key
    [None].  The identifiers, and every document but the last, are
    lost. *)
Theorem result_loop_keeps_last_document (docs : list (list (string * value))) :
  Forall (fun d => has_key "_id" d = true) docs ->
  find_result_of (VList (map VDict docs)) =
    Ret match last docs with
        | Some d => [(SNone, VDict (remove_key "_id" d))]
        | None => []
        end.
Proof.
  intros Hall. unfold find_result_of. simpl.
  rewrite (process_result_documents docs [] [] Hall (or_introl eq_refl)).
  simpl. f_equal. destruct docs as [|d docs]; [reflexivity|].
  unfold snapshot. simpl. rewrite Nat.sub_0_r.
  unfold store, ref in *.
  change (VDict (remove_key "_id" d)
          :: map (fun d0 => VDict (remove_key "_id" d0)) docs)
    with (map (fun d0 => VDict (remove_key "_id" d0)) (d :: docs)).
  rewrite list_lookup_fmap, last_lookup. cbn [length Init.Nat.pred].
  destruct ((d :: docs) !! length docs) as [x|] eqn:El; [reflexivity|].
  apply lookup_ge_None in El. simpl in El. lia.
Qed.

(** X17: what a find-one mode hands to the loop cannot be turned into
    a result.  [None] (nothing found) is not iterable, and a document
    that was found is iterated by its keys, which are strings and have
    no item to delete: both raise [TypeError].  Only a document without
    any key gives the empty dictionary. *)
Theorem result_loop_on_a_single_document (d : list (string * value)) :
  find_result_of None_ = Raise TypeError /\
  find_result_of (VDict []) = Ret [] /\
  (d <> [] -> find_result_of (VDict d) = Raise TypeError).
Proof.
  split; [reflexivity|]. split; [reflexivity|].
  intros Hd. destruct d as [|[k v] d]; [congruence|].
  reflexivity.
Qed.

(** X18: a document without ['_id'] (excluded by the projection, say)
    stops the loop with [KeyError], wherever it stands in the cursor. *)
Theorem result_loop_needs_the_identifier
    (before : list (list (string * value))) (d : list (string * value))
    (after : list value) :
  Forall (fun d => has_key "_id" d = true) before ->
  has_key "_id" d = false ->
  find_result_of (VList (map VDict before ++ VDict d :: after)) =
    Raise KeyError.
Proof.
  intros Hall Hd. unfold find_result_of. simpl.
  assert (G : forall h fr,
             process_result (map VDict before ++ VDict d :: after) h fr =
             Raise KeyError).
  { induction before as [|b before IH]; intros h fr.
    - simpl. unfold delitem, store, ref.
      rewrite list_lookup_middle by reflexivity. rewrite Hd. reflexivity.
    - inversion Hall as [|? ? Hb Hrest]; subst.
      cbn [map app]. rewrite (process_result_document b _ h fr Hb).
      apply IH. exact Hrest. }
  rewrite G. reflexivity.
Qed.

(** ** The informative methods *)

Lemma check_database_reads (w : world) :
  exists o, _check_database w = (o, w).
Proof.
  unfold _check_database, bind, getattr, observe, ret.
  destruct (database (self w)); simpl; [|eexists; reflexivity].
  destruct (instance (self w)); simpl; eexists; reflexivity.
Qed.

(** X19: [get_available_databases] returns the driver's list, or
    the empty list for a false handle, whatever its [filter] argument
    and whatever is selected.  [get_available_collections] returns the
    empty list when the selected database is not in the instance, and
    the driver's filtered list for that database when it is.  Neither
    changes anything. *)
Theorem listings (w : world) (filter : value) :
  (forall cl,
     instance (self w) = Some cl ->
     get_available_databases filter w =
       (Ret (if client_bool cl then list_database_names cl (srv w) else []),
        w)) /\
  ((_check_database w).1 = Ret false ->
   get_available_collections filter w = (Ret [], w)) /\
  ((_check_database w).1 = Ret true ->
   exists cl db,
     instance (self w) = Some cl /\ database (self w) = Some db /\
     get_available_collections filter w =
       (Ret (list_collection_names cl db filter (srv w)), w)).
Proof.
  split; [|split].
  - intros cl Hcl. unfold get_available_databases, bind, getattr, observe, ret.
    rewrite Hcl. destruct (client_bool cl); simpl; rewrite ?Hcl; reflexivity.
  - intros H. destruct (check_database_reads w) as [o Hck].
    rewrite Hck in H. simpl in H. subst o.
    unfold get_available_collections, bind. rewrite Hck. reflexivity.
  - intros H. destruct (check_database_true w H) as (cl & db & Hi & Hd & Hck).
    exists cl, db. split; [exact Hi|]. split; [exact Hd|].
    unfold get_available_collections. unfold bind at 1. rewrite Hck. simpl.
    unfold bind, getattr, observe. rewrite Hi, Hd. reflexivity.
Qed.

(** X20: [get_info] answers with the server's information and the
    two names when both names were assigned, and raises
    [AttributeError] when one of them never was. *)
Theorem get_info_needs_both_names (w : world) (cl : client) :
  instance (self w) = Some cl ->
  (forall db c,
     database (self w) = Some db -> collection (self w) = Some c ->
     get_info w =
       (Ret (VDict [("host", server_info cl (srv w));
                    ("database", VAtom (SStr db));
                    ("collection", VAtom (SStr c))]), w)) /\
  (database (self w) = None \/ collection (self w) = None ->
   get_info w = (Raise AttributeError, w)).
Proof.
  intros Hcl. unfold get_info, _server_info, bind, getattr, observe, ret.
  rewrite Hcl. simpl. split.
  - intros db c Hd Hc. rewrite Hd. simpl. rewrite Hc. reflexivity.
  - intros [H|H]; [rewrite H; reflexivity|].
    destruct (database (self w)); simpl; [rewrite H|]; reflexivity.
Qed.

(** ** Sessions *)

Lemma check_database_keeps : keeps _check_database.
Proof. intros w. destruct (check_database_reads w) as [o ->]. reflexivity. Qed.

Lemma del_keeps : keeps __del__.
Proof.
  unfold __del__. apply bind_keeps; [apply getattr_keeps|].
  intros cl. destruct (client_bool cl); [|intros w; reflexivity].
  apply bind_keeps; [apply getattr_keeps|intros ? w; reflexivity].
Qed.

Lemma drop_database_keeps : keeps drop_database.
Proof.
  unfold drop_database. apply bind_keeps; [apply check_database_keeps|].
  intros [|]; [|intros w; reflexivity].
  repeat (apply bind_keeps; [apply getattr_keeps|intros ?]).
  intros w. reflexivity.
Qed.

Lemma drop_collection_keeps : keeps drop_collection.
Proof.
  unfold drop_collection. apply bind_keeps; [apply check_collection_keeps|].
  intros [|]; [|intros w; reflexivity].
  repeat (apply bind_keeps; [apply getattr_keeps|intros ?]).
  intros w. reflexivity.
Qed.

Lemma get_info_keeps : keeps get_info.
Proof.
  unfold get_info, _server_info.
  repeat (apply bind_keeps; [|intros ?]);
    try apply getattr_keeps; intros w; reflexivity.
Qed.

Lemma listings_keep (f : value) :
  keeps (get_available_databases f) /\ keeps (get_available_collections f).
Proof.
  split.
  - unfold get_available_databases. apply bind_keeps; [apply getattr_keeps|].
    intros cl. destruct (client_bool cl); [|intros w; reflexivity].
    apply bind_keeps; [apply getattr_keeps|intros ? w; reflexivity].
  - unfold get_available_collections.
    apply bind_keeps; [apply check_database_keeps|].
    intros [|]; [|intros w; reflexivity].
    repeat (apply bind_keeps; [apply getattr_keeps|intros ?]).
    intros w. reflexivity.
Qed.

(** What one call may do to the attributes: the handle stays assigned,
    and a name is left alone or replaced by a non-empty one. *)
Lemma invoke_attributes (m : method) (w : world) :
  (is_Some (instance (self w)) -> is_Some (instance (self (invoke m w)))) /\
  (database (self (invoke m w)) = database (self w) \/
   exists n, n <> "" /\ database (self (invoke m w)) = Some n) /\
  (collection (self (invoke m w)) = collection (self w) \/
   exists n, n <> "" /\ collection (self (invoke m w)) = Some n).
Proof.
  assert (Same : forall w', self w' = self w ->
            (is_Some (instance (self w)) -> is_Some (instance (self w'))) /\
            (database (self w') = database (self w) \/
             exists n, n <> "" /\ database (self w') = Some n) /\
            (collection (self w') = collection (self w) \/
             exists n, n <> "" /\ collection (self w') = Some n)).
  { intros w' ->. auto. }
  destruct m; cbn [invoke].
  - apply Same, del_keeps.
  - apply Same, get_info_keeps.
  - (* set_instance *)
    clear Same. destruct w as [[i d c] s l].
    unfold set_instance, bind, getattr, command, ret. simpl.
    destruct i as [cl|]; simpl; [|split; [intros [? [=]]|auto]].
    destruct (connect_database_cases uri host port) as [[a ->]|[-> _]];
      destruct (client_bool cl); simpl; eauto.
  - apply Same, getattr_keeps.
  - (* set_database *)
    unfold set_database. destruct name as [[|a n]|]; simpl; auto.
    split; [auto|]. split; [right|auto]. eexists. split; [|reflexivity].
    discriminate.
  - apply Same, getattr_keeps.
  - (* set_collection *)
    unfold set_collection. destruct name as [[|a n]|]; simpl; auto.
    split; [auto|]. split; [auto|right]. eexists. split; [|reflexivity].
    discriminate.
  - apply Same, getattr_keeps.
  - apply Same, listings_keep.
  - apply Same, listings_keep.
  - (* create_database *)
    clear Same. destruct w as [[i d c] s l].
    unfold create_database, bind, getattr, observe, set_database. simpl.
    destruct i as [cl|]; simpl; [|auto].
    destruct (client_bool cl); simpl; [|auto].
    destruct db_name as [[|a n]|]; simpl; [auto| |auto].
    destruct (contains cl (String a n) s); simpl; [auto|].
    split; [eauto|]. split; [right|auto]. eexists. split; [|reflexivity].
    discriminate.
  - apply Same, drop_database_keeps.
  - (* create_collection *)
    clear Same. destruct w as [[i d c] s l].
    unfold create_collection, _check_database, bind, getattr, observe,
      command, set_collection, get_self, set_self, ret. simpl.
    destruct d as [db|]; simpl; [|auto].
    destruct i as [cl|]; simpl; [|auto].
    destruct (bool_decide (db ∈ keys cl s)); simpl; [|auto].
    destruct collection_name as [[|a n]|]; simpl; auto.
    split; [auto|]. split; [auto|right]. eexists. split; [|reflexivity].
    discriminate.
  - apply Same, drop_collection_keeps.
  - apply Same, insert_keeps.
  - apply Same, replace_keeps.
  - apply Same, update_keeps.
  - apply Same, delete_keeps.
  - apply Same, find_in_keeps.
  - apply Same, count_keeps.
  - apply Same, distinct_keeps.
Qed.

Lemma session_cons (m : method) (ms : list method) (w : world) :
  session (m :: ms) w = session ms (invoke m w).
Proof. reflexivity. Qed.

(** X21: throughout the life of an object, from [__init__] on a new
    object through any calls of its methods, a name it holds is never
    the empty string. *)
Theorem names_are_never_empty (uri host : option string) (port : option Z)
    (d c : option string) (s : server) (ms : list method) :
  names_ok (self (session ms (__init__ uri host port d c (fresh s)).2)).
Proof.
  assert (Hinit : names_ok (self (__init__ uri host port d c (fresh s)).2)).
  { unfold __init__.
    destruct (connect_database_cases uri host port) as [[a ->]|[-> _]].
    - unfold bind, connect, set_database, set_collection, get_self, set_self,
        ret. simpl.
      destruct d as [[|? ?]|], c as [[|? ?]|]; simpl; split; discriminate.
    - split; discriminate. }
  revert Hinit. generalize ((__init__ uri host port d c (fresh s)).2).
  induction ms as [|m ms IH]; intros w Hw; [exact Hw|].
  rewrite session_cons. apply IH.
  destruct (invoke_attributes m w) as (_ & Hd & Hc).
  destruct Hw as [Hwd Hwc]. split.
  - destruct Hd as [->|(n & Hn & ->)]; [exact Hwd|congruence].
  - destruct Hc as [->|(n & Hn & ->)]; [exact Hwc|congruence].
Qed.

(** X22: no call of a method takes an attribute away: once the
    handle, the database name or the collection name is assigned, it
    stays assigned through any session (the drops included); a name can
    only be replaced by another. *)
Theorem assigned_stays_assigned (ms : list method) (w : world) :
  (is_Some (instance (self w)) ->
   is_Some (instance (self (session ms w)))) /\
  (is_Some (database (self w)) ->
   is_Some (database (self (session ms w)))) /\
  (is_Some (collection (self w)) ->
   is_Some (collection (self (session ms w)))).
Proof.
  revert w. induction ms as [|m ms IH]; intros w; [auto|].
  rewrite session_cons.
  destruct (IH (invoke m w)) as (Hi & Hd & Hc).
  destruct (invoke_attributes m w) as (Si & Sd & Sc).
  repeat split; intros H.
  - apply Hi, Si, H.
  - apply Hd. destruct Sd as [->|(n & _ & ->)]; eauto.
  - apply Hc. destruct Sc as [->|(n & _ & ->)]; eauto.
Qed.

End More.

(** * More runs on the deployment [Mock] *)

Section MoreRuns.
#[local] Existing Instance Mock.driver.
#[local] Existing Instance Mock.listing.

Ltac pin H :=
  unfold selected in H; simpl in H; injection H as <- <- <-.

Lemma setter_then_getter_witness :
  "e" <> "" /\ opt_str_bool (Some "") = false /\
  (get_database (set_database (Some "e") Mock.ready).2).1 = Ret "e" /\
  (get_database (set_database (Some "") Mock.ready).2).1 = Ret "d".
Proof.
  assert (Hn : "e" <> "") by discriminate.
  split; [exact Hn|]. split; [reflexivity|].
  destruct (setter_then_getter Mock.ready) as [Hset Hnot].
  destruct (Hset "e" Hn) as (_ & Hget & _).
  destruct (Hnot (Some "") eq_refl) as [E _].
  rewrite E. split; [exact Hget|reflexivity].
Defined.

Lemma connect_raises_before_the_call_witness :
  _connect_database (Some "localhost:27017") None None
                    (fresh Mock.one_collection)
    = (Raise TypeError, fresh Mock.one_collection) /\
  log (_connect_database (Some "localhost:27017") (Some "") None
                         (fresh Mock.one_collection)).2
    = [Connect (by_host "")].
Proof.
  split.
  - apply (proj1 (connect_raises_before_the_call
                    (Some "localhost:27017") None None
                    (@fresh Mock.driver Mock.one_collection))).
    split; [reflexivity|]. split; [reflexivity|].
    intros u [= <-]. reflexivity.
  - destruct (proj2 (connect_raises_before_the_call
                       (Some "localhost:27017") (Some "") None
                       (@fresh Mock.driver Mock.one_collection)))
      as [a E].
    + intros [H _]. discriminate H.
    + rewrite E. vm_compute in E. injection E as E. rewrite <- E.
      reflexivity.
Defined.

Lemma unresolved_selection_is_noop_witness :
  (_check_collection (Mock.on_d_c (Mock.script [] (Mock.with_dbs [] Mock.one_collection)))).1
    = Ret false /\
  count (VDict []) 0 0
        (Mock.on_d_c (Mock.script [] (Mock.with_dbs [] Mock.one_collection)))
    = (Ret (-1),
       Mock.on_d_c (Mock.script [] (Mock.with_dbs [] Mock.one_collection))).
Proof.
  split; [reflexivity|].
  apply (unresolved_selection_is_noop
           (Mock.on_d_c (Mock.script [] (Mock.with_dbs [] Mock.one_collection)))
           eq_refl).
Defined.

Lemma set_instance_closes_then_connects_witness :
  instance (self Mock.ready) = Some by_default /\
  (set_instance None (Some "localhost") (Some 27017) Mock.ready).1 = Ret tt /\
  log (set_instance None (Some "localhost") (Some 27017) Mock.ready).2 =
    [Close; Connect (by_host_port "localhost" 27017)] /\
  database (self (set_instance None (Some "localhost") (Some 27017)
                               Mock.ready).2) = Some "d".
Proof.
  split; [reflexivity|].
  destruct (set_instance_closes_then_connects
              None (Some "localhost") (Some 27017) Mock.ready by_default
              eq_refl) as (E & _ & Hd & _).
  split; [rewrite E; reflexivity|]. split; [rewrite E; reflexivity|].
  exact Hd.
Defined.

Lemma failed_set_instance_keeps_closed_handle_witness :
  instance (self Mock.ready) = Some by_default /\
  opt_str_bool (Some "localhost:27017") = true /\
  set_instance (Some "localhost:27017") None None Mock.ready =
    (Raise TypeError, answered Mock.ready Mock.one_collection Close).
Proof.
  split; [reflexivity|]. split; [reflexivity|].
  apply (failed_set_instance_keeps_closed_handle
           (Some "localhost:27017") None Mock.ready by_default
           eq_refl eq_refl eq_refl).
  intros u [= <-]. reflexivity.
Defined.

Lemma create_database_cases_witness :
  instance (self Mock.ready) = Some by_default /\
  create_database (Some "d") Mock.ready = (Ret tt, Mock.ready) /\
  database (self (create_database (Some "e") Mock.ready).2) = Some "e" /\
  collection (self (create_database (Some "e") Mock.ready).2) = Some "c".
Proof.
  split; [reflexivity|].
  destruct (create_database_cases Mock.ready by_default eq_refl)
    as (_ & Hold & Hnew).
  split; [apply Hold; reflexivity|].
  rewrite (Hnew "e" ltac:(discriminate) eq_refl eq_refl).
  split; reflexivity.
Defined.

Lemma create_collection_on_existing_database_witness :
  (_check_database Mock.ready).1 = Ret true /\
  log (create_collection None Mock.ready).2 = [CreateCollection "d" None] /\
  collection (self (create_collection None Mock.ready).2) = Some "c".
Proof.
  split; [reflexivity|].
  destruct (create_collection_on_existing_database Mock.ready None eq_refl)
    as (cl & db & Hi & Hd & E).
  simpl in Hi, Hd. injection Hi as <-. injection Hd as <-.
  rewrite E. split; reflexivity.
Defined.

Lemma administration_needs_existing_names_witness :
  (_check_database (Mock.on_d_c (Mock.with_dbs [] Mock.one_collection))).1
    = Ret false /\
  drop_database (Mock.on_d_c (Mock.with_dbs [] Mock.one_collection)) =
    (Ret tt, Mock.on_d_c (Mock.with_dbs [] Mock.one_collection)) /\
  (_check_collection
     (Mock.on_d_c (Mock.with_dbs [("d", [])] Mock.one_collection))).1
    = Ret false /\
  drop_collection (Mock.on_d_c (Mock.with_dbs [("d", [])] Mock.one_collection))
    = (Ret tt, Mock.on_d_c (Mock.with_dbs [("d", [])] Mock.one_collection)).
Proof.
  split; [reflexivity|]. split.
  - apply (proj1 (administration_needs_existing_names
                    (Mock.on_d_c (Mock.with_dbs [] Mock.one_collection)))).
    reflexivity.
  - split; [reflexivity|].
    apply (proj2 (administration_needs_existing_names
                    (Mock.on_d_c (Mock.with_dbs [("d", [])]
                                                Mock.one_collection)))).
    reflexivity.
Defined.

Lemma create_then_active_witness :
  instance (self Mock.ready) = Some by_default /\
  "e" <> "" /\ "k" <> "" /\
  active ((create_database (Some "e") >> create_collection (Some "k"))
            Mock.ready).2 /\
  (insert (Mock.a_is 1)
          ((create_database (Some "e") >> create_collection (Some "k"))
             Mock.ready).2).1 = Ret true.
Proof.
  split; [reflexivity|]. split; [discriminate|]. split; [discriminate|].
  split; [|reflexivity].
  apply (create_then_active Mock.ready by_default "e" "k"
           eq_refl eq_refl ltac:(discriminate) ltac:(discriminate) eq_refl);
    vm_compute; repeat constructor.
Defined.

Lemma delete_success_signal_witness :
  active Mock.ready /\
  (delete (VDict []) true Mock.ready).1 = Ret false /\
  (delete (VDict []) false Mock.ready).1 = Ret false.
Proof.
  assert (Ha : active Mock.ready) by reflexivity.
  split; [exact Ha|].
  destruct (delete_success_signal Mock.ready (VDict []) Ha)
    as (cl & db & c & Hsel & (b1 & E1 & H1) & (b2 & E2 & H2)).
  pin Hsel. rewrite E1, E2. simpl.
  split; f_equal.
  - destruct b1; [|reflexivity]. apply proj1 in H1.
    specialize (H1 eq_refl). simpl in H1. lia.
  - destruct b2; [|reflexivity]. apply proj1 in H2.
    specialize (H2 eq_refl). simpl in H2. lia.
Defined.

Lemma count_distinct_pass_through_witness :
  active Mock.ready /\
  (count (VDict []) 0 0 Mock.ready).1 = Ret 0 /\
  (distinct "a" None_ Mock.ready).1 = Ret [].
Proof.
  assert (Ha : active Mock.ready) by reflexivity.
  split; [exact Ha|].
  destruct (count_distinct_pass_through Mock.ready (VDict []) 0 0 "a" Ha)
    as (cl & db & c & Hsel & E1 & _).
  destruct (count_distinct_pass_through Mock.ready None_ 0 0 "a" Ha)
    as (cl' & db' & c' & Hsel' & _ & E2).
  pin Hsel. pin Hsel'. rewrite E1, E2. split; reflexivity.
Defined.

Lemma insert_of_a_scalar_witness :
  active Mock.ready /\
  insert None_ Mock.ready = (Ret false, Mock.ready) /\
  insert (VAtom (SInt 5)) Mock.ready = (Raise TypeError, Mock.ready) /\
  log (insert (VAtom (SStr "abc")) Mock.ready).2 =
    [OnCollection "d" "c"
       (InsertOne (VAtom (SStr "a"))
                  {| inserted_id := VAtom (SObjectId 0) |})].
Proof.
  assert (Ha : active Mock.ready) by reflexivity.
  split; [exact Ha|].
  destruct (insert_of_a_scalar Mock.ready) as [Hfalse Hact].
  destruct (Hact Ha) as [Hnum Hstr].
  split; [apply Hfalse; reflexivity|].
  split; [apply Hnum; [reflexivity|discriminate]|].
  destruct (Hstr (Ascii.ascii_of_nat 97) "bc") as (cl & db & c & Hsel & E).
  pin Hsel. apply (f_equal (fun r => log r.2)) in E. exact E.
Defined.

Lemma replace_batch_has_no_cap_witness :
  active (Mock.scripted [(3, 1); (3, 1); (3, 1); (3, 1)]%nat) /\
  (replace 4 None_ (Mock.a_is 1) false false
           (Mock.scripted [(3, 1); (3, 1); (3, 1); (3, 1)]%nat)).1 = Running /\
  length (log (replace 4 None_ (Mock.a_is 1) false false
                 (Mock.scripted [(3, 1); (3, 1); (3, 1); (3, 1)]%nat)).2)
    = 4%nat.
Proof.
  assert (Ha : active (Mock.scripted [(3, 1); (3, 1); (3, 1); (3, 1)]%nat))
    by reflexivity.
  split; [exact Ha|].
  destruct (replace_batch_has_no_cap
              (Mock.scripted [(3, 1); (3, 1); (3, 1); (3, 1)]%nat)
              None_ (Mock.a_is 1) false 4 Ha)
    as (cl & db & c & Hsel & Hrun).
  pin Hsel. destruct Hrun as [E _].
  - intros r Hr. vm_compute in Hr.
    repeat (apply elem_of_cons in Hr as [->|Hr]; [split; discriminate|]).
    apply elem_of_nil in Hr. contradiction.
  - rewrite E. split; reflexivity.
Defined.

Lemma replace_batch_with_single_answers_witness :
  active (Mock.scripted [(1, 0)%nat]) /\
  replace 7 None_ (Mock.a_is 1) false false (Mock.scripted [(1, 0)%nat]) =
    (Ret false,
     answered (Mock.scripted [(1, 0)%nat]) Mock.one_collection
       (OnCollection "d" "c"
          (ReplaceOne None_ (Mock.a_is 1) false
                      {| matched_count := 1; modified_count := 0 |}))).
Proof.
  assert (Ha : active (Mock.scripted [(1, 0)%nat])) by reflexivity.
  split; [exact Ha|].
  destruct (replace_batch_with_single_answers
              (Mock.scripted [(1, 0)%nat]) None_ (Mock.a_is 1) false 6 Ha)
    as (cl & db & c & Hsel & Hone).
  pin Hsel. destruct Hone as [E _]; [simpl; lia|simpl; lia|].
  rewrite E. reflexivity.
Defined.

Lemma result_loop_keeps_last_document_witness :
  Forall (fun d => has_key "_id" d = true)
         [[("_id", VAtom (SInt 7)); ("a", VAtom (SInt 1))];
          [("_id", VAtom (SInt 8)); ("a", VAtom (SInt 2))]] /\
  find_result_of (VList [Mock.with_id 7 1; Mock.with_id 8 2]) =
    Ret [(SNone, Mock.a_is 2)].
Proof.
  assert (H : Forall (fun d => has_key "_id" d = true)
                [[("_id", VAtom (SInt 7)); ("a", VAtom (SInt 1))];
                 [("_id", VAtom (SInt 8)); ("a", VAtom (SInt 2))]])
    by (repeat constructor).
  split; [exact H|].
  exact (result_loop_keeps_last_document _ H).
Defined.

Lemma result_loop_on_a_single_document_witness :
  [("_id", VAtom (SInt 7)); ("a", VAtom (SInt 1))] <> [] /\
  find_result_of (Mock.with_id 7 1) = Raise TypeError.
Proof.
  split; [discriminate|].
  apply (result_loop_on_a_single_document
           [("_id", VAtom (SInt 7)); ("a", VAtom (SInt 1))]).
  discriminate.
Defined.

Lemma result_loop_needs_the_identifier_witness :
  Forall (fun d => has_key "_id" d = true)
         [[("_id", VAtom (SInt 7)); ("a", VAtom (SInt 1))]] /\
  has_key "_id" [("a", VAtom (SInt 2))] = false /\
  find_result_of (VList [Mock.with_id 7 1; Mock.a_is 2; Mock.with_id 9 3]) =
    Raise KeyError.
Proof.
  assert (H : Forall (fun d => has_key "_id" d = true)
                [[("_id", VAtom (SInt 7)); ("a", VAtom (SInt 1))]])
    by (repeat constructor).
  split; [exact H|]. split; [reflexivity|].
  exact (result_loop_needs_the_identifier
           _ [("a", VAtom (SInt 2))] [Mock.with_id 9 3] H eq_refl).
Defined.

Lemma listings_witness :
  instance (self Mock.ready) = Some by_default /\
  (_check_database Mock.ready).1 = Ret true /\
  (get_available_databases (VAtom (SStr "x")) Mock.ready).1 = Ret ["d"] /\
  (get_available_collections None_ Mock.ready).1 = Ret ["c"] /\
  (_check_database (Mock.on_d_c (Mock.with_dbs [] Mock.one_collection))).1
    = Ret false /\
  (get_available_collections
     None_ (Mock.on_d_c (Mock.with_dbs [] Mock.one_collection))).1 = Ret [].
Proof.
  split; [reflexivity|]. split; [reflexivity|].
  destruct (listings Mock.ready (VAtom (SStr "x"))) as (Hdb & _ & _).
  destruct (listings Mock.ready None_) as (_ & _ & Hc).
  destruct (listings (Mock.on_d_c (Mock.with_dbs [] Mock.one_collection)) None_)
    as (_ & Hnone & _).
  rewrite (Hdb by_default eq_refl).
  destruct (Hc eq_refl) as (cl & db & Hi & Hd & E).
  simpl in Hi, Hd. injection Hi as <-. injection Hd as <-.
  rewrite E, (Hnone eq_refl). repeat split; reflexivity.
Defined.

Lemma get_info_needs_both_names_witness :
  instance (self Mock.ready) = Some by_default /\
  (get_info Mock.ready).1 =
    Ret (VDict [("host", VDict [("version", VAtom (SStr "4.2"))]);
                ("database", VAtom (SStr "d"));
                ("collection", VAtom (SStr "c"))]) /\
  (get_info (__init__ None None None (Some "d") None
                      (fresh Mock.one_collection)).2).1
    = Raise AttributeError.
Proof.
  split; [reflexivity|].
  destruct (get_info_needs_both_names Mock.ready by_default eq_refl)
    as [Hboth _].
  rewrite (Hboth "d" "c" eq_refl eq_refl). split; [reflexivity|].
  destruct (get_info_needs_both_names
              (@__init__ Mock.driver None None None (Some "d") None
                         (@fresh Mock.driver Mock.one_collection)).2
              by_default eq_refl)
    as [_ Hnone].
  rewrite (Hnone (or_intror eq_refl)). reflexivity.
Defined.

Lemma assigned_stays_assigned_witness :
  is_Some (database (self Mock.ready)) /\
  is_Some (database
             (self (session [Call_drop_database; Call_set_database None;
                             Call_insert (Mock.a_is 1)] Mock.ready))).
Proof.
  assert (H : is_Some (database (self Mock.ready))) by (eexists; reflexivity).
  split; [exact H|].
  apply (proj1 (proj2 (assigned_stays_assigned
                         [Call_drop_database; Call_set_database None;
                          Call_insert (Mock.a_is 1)] Mock.ready))).
  exact H.
Defined.

End MoreRuns.
